(** * hlampctl: an IIO driver for an I2C lamp controller

    A shallow embedding of [hlampctl.c].  The driver talks to two outside
    parties, the I2C core and the IIO core; both are interfaces here
    ([I2CBus], [IIOHost]) and every driver function is written over an
    arbitrary implementation of them.  Driver state is threaded through a
    small monad [Dev]; C out-parameters ([int *value]) are passed in with
    their contents before the call and handed back with their contents
    after it. *)

From Stdlib Require Import ZArith List Lia Ascii String DecimalString.
Import ListNotations.
Local Open Scope Z_scope.

(** ** C integer types *)

Module CInt.

Definition to_u8 (z : Z) : Z := z mod 2 ^ 8.
Definition to_u32 (z : Z) : Z := z mod 2 ^ 32.
Definition to_s32 (z : Z) : Z :=
  let u := to_u32 z in if u <? 2 ^ 31 then u else u - 2 ^ 32.

End CInt.
Import CInt.

(** ** Kernel constants (errno-base.h, errno.h, iio/types.h, i2c.h) *)

Definition ENOMEM : Z := 12.
Definition ENODEV : Z := 19.
Definition EINVAL : Z := 22.
Definition EOPNOTSUPP : Z := 95.

Definition IIO_VAL_INT : Z := 1.
Definition IIO_VAL_INT_PLUS_NANO : Z := 3.

Definition IIO_CHAN_INFO_RAW : Z := 0.
Definition IIO_CHAN_INFO_SCALE : Z := 2.
Definition IIO_CHAN_INFO_SAMP_FREQ : Z := 12.

Definition I2C_FUNC_I2C : Z := 1.
Definition INDIO_DIRECT_MODE : Z := 1.

Definition BIT (n : Z) : Z := Z.shiftl 1 n.

(** [sign_extend32] of linux/bitops.h:
    [u8 shift = 31 - index; return (s32)(value << shift) >> shift;]
    with [value] a u32. *)
Definition sign_extend32 (value : Z) (index : Z) : Z :=
  let shift := to_u8 (31 - index) in
  Z.shiftr (to_s32 (to_u32 (Z.shiftl value shift))) shift.

(** ** The I2C core, as the driver sees it

    [B] is the state behind a [struct i2c_client *]: the adapter and the
    peripheral on the wire.  Results are the kernel's [s32]/[int] codes. *)

Class I2CBus (B : Type) := {
  (* i2c_smbus_read_byte_data(client, command) *)
  i2c_smbus_read_byte_data : B -> Z -> Z * B;
  (* i2c_smbus_write_byte_data(client, command, value) *)
  i2c_smbus_write_byte_data : B -> Z -> Z -> Z * B;
  (* i2c_master_recv(client, buf, count); the received bytes are dropped *)
  i2c_master_recv : B -> Z -> Z * B;
  (* i2c_check_functionality(client->adapter, func) *)
  i2c_check_functionality : B -> Z -> bool;
  (* client->name *)
  i2c_client_name : B -> string
}.

(** ** Client data *)

Record hlampctl (B : Type) : Type := Build_hlampctl {
  i2c : B;
  id : Z;
  lock : bool  (* struct mutex: [true] while held *)
}.
Arguments Build_hlampctl {B}.
Arguments i2c {B}.
Arguments id {B}.
Arguments lock {B}.

Definition set_i2c {B} (adc : hlampctl B) (b : B) : hlampctl B :=
  Build_hlampctl b (id adc) (lock adc).
Definition set_lock {B} (adc : hlampctl B) (l : bool) : hlampctl B :=
  Build_hlampctl (i2c adc) (id adc) l.

(** ** The driver monad

    A computation over the client data.  [None] is a call that never
    returns: [mutex_lock] on a mutex that nobody will release. *)

Definition Dev (B A : Type) : Type := hlampctl B -> option (A * hlampctl B).

Definition ret {B A} (a : A) : Dev B A := fun adc => Some (a, adc).

Definition bind {B A C} (m : Dev B A) (f : A -> Dev B C) : Dev B C :=
  fun adc => match m adc with
             | Some (a, adc') => f a adc'
             | None => None
             end.

Declare Scope dev_scope.
Delimit Scope dev_scope with dev.
Notation "x <- m ;; k" := (bind m (fun x => k))
  (at level 61, m at next level, right associativity) : dev_scope.
Notation "m ;; k" := (bind m (fun _ => k))
  (at level 61, right associativity) : dev_scope.
Local Open Scope dev_scope.

Section Driver.

Context {B : Type} `{I2CBus B}.

Definition smbus_read_byte_data (command : Z) : Dev B Z :=
  fun adc => let (r, b) := i2c_smbus_read_byte_data (i2c adc) command in
             Some (r, set_i2c adc b).

Definition smbus_write_byte_data (command value : Z) : Dev B Z :=
  fun adc => let (r, b) := i2c_smbus_write_byte_data (i2c adc) command value in
             Some (r, set_i2c adc b).

Definition mutex_lock : Dev B unit :=
  fun adc => if lock adc then None else Some (tt, set_lock adc true).

Definition mutex_unlock : Dev B unit :=
  fun adc => Some (tt, set_lock adc false).

(** The client data after one byte read at [command], and after one byte
    write of [value] at [command]. *)
Definition after_read (adc : hlampctl B) (command : Z) : hlampctl B :=
  set_i2c adc (snd (i2c_smbus_read_byte_data (i2c adc) command)).

Definition after_write (adc : hlampctl B) (command value : Z) : hlampctl B :=
  set_i2c adc (snd (i2c_smbus_write_byte_data (i2c adc) command value)).

(** [hlampctl_read(adc, channel, value)]: the result is the return code
    paired with the contents of [*value] after the call. *)
Definition hlampctl_read (channel : Z) (value : Z) : Dev B (Z * Z) :=
  readval <- match channel with
             | 0 => smbus_read_byte_data 2
             | 1 => smbus_read_byte_data 1
             | 2 => smbus_read_byte_data 3
             | _ => ret (-1)
             end ;;
  if readval <? 0 then ret (- EINVAL, value)
  else
    let temp := to_u32 readval in
    let temp := if channel =? 2 then Z.land temp 1 else temp in
    let value := if channel =? 0 then sign_extend32 temp 11
                 else to_s32 temp in
    ret (0, value).

Definition hlampctl_write (channel : Z) (value : Z) : Dev B Z :=
  if channel =? 2 then
    retval <- smbus_write_byte_data 3 (if value >? 0 then 1 else 0) ;;
    ret retval
  else ret (- EINVAL).

(** [struct iio_chan_spec], the fields the channel table sets. *)

Inductive iio_chan_type : Type := IIO_VOLTAGE | IIO_TEMP.

Record iio_chan_spec : Type := Build_iio_chan_spec {
  type : iio_chan_type;
  indexed : Z;
  channel : Z;
  output : Z;
  info_mask_separate : Z;
  info_mask_shared_by_type : Z
}.

Definition HLAMPCTL_ADCCHAN (_index : Z) : iio_chan_spec :=
  {| type := IIO_VOLTAGE;
     indexed := 1;
     channel := _index;
     output := 0;
     info_mask_separate :=
       Z.lor (BIT IIO_CHAN_INFO_RAW) (BIT IIO_CHAN_INFO_SCALE);
     info_mask_shared_by_type := BIT IIO_CHAN_INFO_SAMP_FREQ |}.

Definition HLAMPCTL_TEMPCHAN (_index : Z) : iio_chan_spec :=
  {| type := IIO_TEMP;
     indexed := 1;
     channel := _index;
     output := 0;
     info_mask_separate := BIT IIO_CHAN_INFO_RAW;
     info_mask_shared_by_type := BIT IIO_CHAN_INFO_SAMP_FREQ |}.

Definition HLAMPCTL_ENABLECHAN (_index : Z) : iio_chan_spec :=
  {| type := IIO_VOLTAGE;
     indexed := 1;
     channel := _index;
     output := 1;
     info_mask_separate := BIT IIO_CHAN_INFO_RAW;
     info_mask_shared_by_type := 0 |}.

Definition hlampctl_channels : list iio_chan_spec :=
  [ HLAMPCTL_ADCCHAN 0; HLAMPCTL_TEMPCHAN 1; HLAMPCTL_ENABLECHAN 2 ].

Definition hlampctl_read_channel (chan : iio_chan_spec) (value : Z)
  : Dev B (Z * Z) :=
  let req_channel := to_u8 (channel chan) in
  mutex_lock ;;
  r <- hlampctl_read req_channel value ;;
  mutex_unlock ;;
  ret r.

Definition hlampctl_write_channel (chan : iio_chan_spec) (value : Z)
  : Dev B Z :=
  let req_channel := to_u8 (channel chan) in
  mutex_lock ;;
  r <- hlampctl_write req_channel value ;;
  mutex_unlock ;;
  ret r.

(** [hlampctl_read_raw]: return code, then the contents of [*val1] and
    [*val2] after the call. *)
Definition hlampctl_read_raw (chan : iio_chan_spec) (val1 val2 : Z) (mask : Z)
  : Dev B (Z * Z * Z) :=
  if mask =? IIO_CHAN_INFO_RAW then
    r <- hlampctl_read_channel chan val1 ;;
    let (err, val1) := (r : Z * Z) in
    if err <? 0 then ret (- EINVAL, val1, val2)
    else ret (IIO_VAL_INT, val1, val2)
  else if mask =? IIO_CHAN_INFO_SCALE then
    if channel chan =? 0 then
      let val1 := 0 in
      let val2 := to_s32 (Z.quot 3300000000 256) in
      ret (IIO_VAL_INT_PLUS_NANO, val1, val2)
    else
      let val1 := 1 in
      ret (IIO_VAL_INT, val1, val2)
  else if mask =? IIO_CHAN_INFO_SAMP_FREQ then
    let val1 := 10 in
    ret (IIO_VAL_INT, val1, val2)
  else ret (- EINVAL, val1, val2).

Definition hlampctl_write_raw (chan : iio_chan_spec) (val1 val2 : Z) (mask : Z)
  : Dev B Z :=
  if mask =? IIO_CHAN_INFO_RAW then
    if channel chan =? 2 then
      err <- hlampctl_write_channel chan val1 ;;
      if err <? 0 then ret (- EINVAL) else ret 0
    else ret (- EINVAL)
  else if mask =? IIO_CHAN_INFO_SCALE then ret (- EINVAL)
  else if mask =? IIO_CHAN_INFO_SAMP_FREQ then ret (- EINVAL)
  else ret (- EINVAL).

Definition hlampctl_write_raw_get_fmt (chan : iio_chan_spec) (mask : Z) : Z :=
  if mask =? IIO_CHAN_INFO_RAW then IIO_VAL_INT
  else if mask =? IIO_CHAN_INFO_SCALE then
    if channel chan =? 0 then IIO_VAL_INT_PLUS_NANO else IIO_VAL_INT
  else if mask =? IIO_CHAN_INFO_SAMP_FREQ then IIO_VAL_INT
  else - EINVAL.

(** ** Attaching *)

(** [struct iio_dev], the fields the probe fills in, and the private area
    holding the client data.  The callback table [hlampctl_info] is the
    three functions above. *)
Record iio_dev : Type := Build_iio_dev {
  name : string;
  modes : Z;
  channels : list iio_chan_spec;
  num_channels : Z;
  iio_priv : hlampctl B
}.

(** The IIO core and the device-managed allocator.  [K] is their state. *)
Class IIOHost (K : Type) := {
  (* devm_iio_device_alloc(&client->dev, size): [false] is a NULL result *)
  devm_iio_device_alloc : K -> bool * K;
  (* devm_iio_device_register(&client->dev, indio_dev) *)
  devm_iio_device_register : K -> iio_dev -> Z * K;
  (* i2c_set_clientdata(client, indio_dev) *)
  i2c_set_clientdata : K -> iio_dev -> K
}.

Context {K : Type} `{IIOHost K}.

Definition master_recv (count : Z) : Dev B Z :=
  fun adc => let (r, b) := i2c_master_recv (i2c adc) count in
             Some (r, set_i2c adc b).

Definition mutex_init : Dev B unit :=
  fun adc => Some (tt, set_lock adc false).

(** [hlampctl_probe(client, id)]: the return code, the host after the call
    and the client after the call. *)
Definition hlampctl_probe (client : B) (k : K) : option (Z * K * B) :=
  if negb (i2c_check_functionality client I2C_FUNC_I2C) then
    Some (- EOPNOTSUPP, k, client)
  else
    let (indio_dev, k) := devm_iio_device_alloc k in
    if negb indio_dev then Some (- ENOMEM, k, client)
    else
      (* the private area comes zeroed; adc->i2c = client *)
      let adc := Build_hlampctl client 0 false in
      match (mutex_init ;;
             mutex_lock ;;
             r <- master_recv 1 ;;
             mutex_unlock ;;
             ret r) adc with
      | None => None
      | Some (r, adc) =>
        if r <? 0 then Some (- ENODEV, k, i2c adc)
        else
          let indio_dev :=
            {| name := i2c_client_name client;
               modes := INDIO_DIRECT_MODE;
               channels := hlampctl_channels;
               num_channels := 3;
               iio_priv := adc |} in
          let (err, k) := devm_iio_device_register k indio_dev in
          if err <? 0 then Some (err, k, i2c adc)
          else
            let k := i2c_set_clientdata k indio_dev in
            Some (0, k, i2c adc)
      end.

End Driver.

Arguments iio_dev B : clear implicits.
Arguments IIOHost B K : clear implicits.

(** What [hlampctl_read] makes of a non-negative bus result [readval]: the
    assignments between the error test and [return 0]. *)
Definition decode (channel readval : Z) : Z :=
  let temp := to_u32 readval in
  let temp := if channel =? 2 then Z.land temp 1 else temp in
  if channel =? 0 then sign_extend32 temp 11 else to_s32 temp.

(** ** What the specification calls things *)

Module Spec.

(** [sign_extend12] in the specification's words: the low 12 bits, with
    bit 11 as the sign bit. *)
Definition sign_extend12 (r : Z) : Z :=
  let low := Z.land r 4095 in
  if Z.testbit low 11 then low - 4096 else low.

(** The byte the specification says a write to channel 2 puts on the wire. *)
Definition bool_byte (v : Z) : Z := if 0 <? v then 1 else 0.

Definition valid_channel (channel : Z) : Prop :=
  channel = 0 \/ channel = 1 \/ channel = 2.

(** Sub-address behind each readable channel. *)
Definition sub_address (channel : Z) : Z :=
  match channel with
  | 0 => 2
  | 1 => 1
  | _ => 3
  end.

End Spec.

Section SpecAttach.

Context {B : Type} `{I2CBus B} {K : Type} `{IIOHost B K}.

(** The device the probe hands to the IIO core, once the probe read has
    left the client in state [client']. *)
Definition probed_dev (client client' : B) : iio_dev B :=
  {| name := i2c_client_name client;
     modes := INDIO_DIRECT_MODE;
     channels := hlampctl_channels;
     num_channels := 3;
     iio_priv := Build_hlampctl client' 0 false |}.

(** attach() in the specification's words: NotSupported when the bus lacks
    the transfer primitive, NotFound when the one-byte probe read returns
    an error, and success with three channels registered otherwise. *)
Definition attach_as_specified (client : B) (k : K) : Prop :=
  (i2c_check_functionality client I2C_FUNC_I2C = false ->
   exists k' client',
     hlampctl_probe client k = Some (- EOPNOTSUPP, k', client'))
  /\ (i2c_check_functionality client I2C_FUNC_I2C = true ->
      fst (i2c_master_recv client 1) < 0 ->
      exists k' client',
        hlampctl_probe client k = Some (- ENODEV, k', client'))
  /\ (i2c_check_functionality client I2C_FUNC_I2C = true ->
      0 <= fst (i2c_master_recv client 1) ->
      exists k1 d client',
        hlampctl_probe client k
          = Some (0, i2c_set_clientdata
                       (snd (devm_iio_device_register k1 d)) d, client')
        /\ num_channels d = 3 /\ List.length (channels d) = 3%nat).

End SpecAttach.

(** ** A scripted peripheral

    An implementation of both interfaces that can be run: registers that
    answer reads with whatever they hold (a negative entry is an errno),
    writes that land in the register unless the script makes them fail, and
    a log of every transfer put on the wire. *)

Module Sim.

Inductive xfer : Type :=
| Rd (command : Z)
| Wr (command value : Z)
| Recv (count : Z).

Record wire : Type := Build_wire {
  reg : Z -> Z;
  wr_status : Z;
  recv_status : Z;
  functionality : Z;
  log : list xfer
}.

Definition put (w : wire) (t : xfer) : wire :=
  Build_wire (reg w) (wr_status w) (recv_status w) (functionality w)
             (log w ++ [t]).

Definition store (w : wire) (command value : Z) : wire :=
  Build_wire (fun c => if c =? command then value else reg w c)
             (wr_status w) (recv_status w) (functionality w) (log w).

#[global] Instance wire_bus : I2CBus wire := {
  i2c_smbus_read_byte_data w command := (reg w command, put w (Rd command));
  i2c_smbus_write_byte_data w command value :=
    if wr_status w <? 0 then (wr_status w, put w (Wr command value))
    else (0, put (store w command value) (Wr command value));
  i2c_master_recv w count := (recv_status w, put w (Recv count));
  i2c_check_functionality w func :=
    Z.land (functionality w) func =? func;
  i2c_client_name _ := "hlampctl"%string
}.

Record host : Type := Build_host {
  alloc_ok : bool;
  register_status : Z;
  registered : list (iio_dev wire);
  clientdata : option (iio_dev wire)
}.

#[global] Instance host_iio : IIOHost wire host := {
  devm_iio_device_alloc k := (alloc_ok k, k);
  devm_iio_device_register k dev :=
    if register_status k <? 0 then (register_status k, k)
    else (0, Build_host (alloc_ok k) (register_status k)
                        (registered k ++ [dev]) (clientdata k));
  i2c_set_clientdata k dev :=
    Build_host (alloc_ok k) (register_status k) (registered k) (Some dev)
}.

(** A peripheral with the three registers holding [temp], [adc], [en]. *)
Definition idle (temp adc en : Z) : wire :=
  Build_wire (fun c => match c with 1 => temp | 2 => adc | 3 => en | _ => 0 end)
             0 1 I2C_FUNC_I2C [].

Definition dev (w : wire) : hlampctl wire := Build_hlampctl w 0 false.

Definition fresh_host : host := Build_host true 0 [] None.

End Sim.

(** ** The two listing attributes

    [sprintf] for the conversions the driver uses.  A [show] function gets
    the buffer as it was and gives back the character count and the buffer
    as a string. *)

Module Printf.

Definition newline : string := String (Ascii.ascii_of_nat 10) EmptyString.

(** [%lu]: an unsigned long in decimal. *)
Definition lu (n : Z) : string :=
  DecimalString.NilZero.string_of_uint (N.to_uint (Z.to_N n)).

Fixpoint zeros (n : nat) : string :=
  match n with
  | O => EmptyString
  | S n' => String "0"%char (zeros n')
  end.

(** [%0<width>lu]: padded on the left with zeros up to the field width. *)
Definition lu0 (width : nat) (n : Z) : string :=
  let digits := lu n in
  append (zeros (width - String.length digits)) digits.

(** The decimal number a string of digits spells, if it is one. *)
Definition value (digits : string) : option Z :=
  match DecimalString.NilZero.uint_of_string digits with
  | Some d => Some (Z.of_N (N.of_uint d))
  | None => None
  end.

End Printf.

Definition hlampctl_show_samp_freqs (buf : string) : Z * string :=
  let buf := append "10"%string Printf.newline in
  (Z.of_nat (String.length buf), buf).

Definition hlampctl_show_scales (buf : string) : Z * string :=
  let buf := append "0."%string (append (Printf.lu0 9 (Z.quot 3300000000 256))
                                 Printf.newline) in
  (Z.of_nat (String.length buf), buf).

(** ** How the IIO core reads the channel table

    A facet is offered on a channel when its bit is set in one of the
    channel's info masks. *)
Definition advertises (chan : iio_chan_spec) (mask : Z) : bool :=
  Z.testbit (info_mask_separate chan) mask
  || Z.testbit (info_mask_shared_by_type chan) mask.

(** ** The IIO core calling in

    The callbacks of [hlampctl_info] as the IIO core uses them on one
    device: a query ([read_raw]) or an update ([write_raw]) at a time, the
    client data carried from one call to the next. *)

(** The codes a callback can hand to the IIO core. *)
Definition callback_code (code : Z) : Prop :=
  code = - EINVAL \/ code = 0 \/ code = IIO_VAL_INT
  \/ code = IIO_VAL_INT_PLUS_NANO.

Inductive request : Type :=
| Query (chan : iio_chan_spec) (val1 val2 mask : Z)
| Update (chan : iio_chan_spec) (val1 val2 mask : Z).

Section Requests.

Context {B : Type} `{I2CBus B}.

(** One call; the answer is the callback's return code. *)
Definition serve (q : request) : Dev B Z :=
  match q with
  | Query chan val1 val2 mask =>
      r <- hlampctl_read_raw chan val1 val2 mask ;;
      ret (fst (fst r))
  | Update chan val1 val2 mask => hlampctl_write_raw chan val1 val2 mask
  end.

Fixpoint serve_all (qs : list request) : Dev B (list Z) :=
  match qs with
  | [] => ret []
  | q :: qs' =>
      code <- serve q ;;
      codes <- serve_all qs' ;;
      ret (code :: codes)
  end.

End Requests.

(** * Properties *)

(** ** Integer lemmas *)

Lemma to_u32_small (z : Z) : 0 <= z < 2 ^ 32 -> to_u32 z = z.
Proof. intros Hz. unfold to_u32. apply Z.mod_small. exact Hz. Qed.

Lemma to_s32_small (z : Z) : 0 <= z < 2 ^ 31 -> to_s32 z = z.
Proof.
  intros Hz. unfold to_s32. rewrite to_u32_small by lia.
  destruct (Z.ltb_spec z (2 ^ 31)); lia.
Qed.

Lemma to_s32_high (z : Z) : 2 ^ 31 <= z < 2 ^ 32 -> to_s32 z = z - 2 ^ 32.
Proof.
  intros Hz. unfold to_s32. rewrite to_u32_small by lia.
  destruct (Z.ltb_spec z (2 ^ 31)); lia.
Qed.

Lemma sign_extend32_bit11 (r : Z) :
  0 <= r <= 4095 ->
  sign_extend32 r 11 = if r <? 2048 then r else r - 4096.
Proof.
  intros Hr. unfold sign_extend32.
  change (to_u8 (31 - 11)) with 20.
  rewrite Z.shiftl_mul_pow2 by lia.
  rewrite to_u32_small by lia.
  rewrite Z.shiftr_div_pow2 by lia.
  destruct (Z.ltb_spec r 2048) as [Hlo | Hhi].
  - rewrite to_s32_small by lia. apply Z.div_mul. lia.
  - rewrite to_s32_high by lia.
    replace (r * 2 ^ 20 - 2 ^ 32) with ((r - 4096) * 2 ^ 20) by lia.
    apply Z.div_mul. lia.
Qed.

Lemma sign_extend12_cases (r : Z) :
  0 <= r <= 4095 ->
  Spec.sign_extend12 r = if r <? 2048 then r else r - 4096.
Proof.
  intros Hr. unfold Spec.sign_extend12.
  change 4095 with (Z.ones 12).
  rewrite Z.land_ones by lia.
  rewrite Z.mod_small by lia.
  rewrite Z.testbit_eqb by lia. change (2 ^ 11) with 2048.
  destruct (Z.ltb_spec r 2048) as [Hlo | Hhi].
  - rewrite Z.div_small by lia. reflexivity.
  - replace (r / 2048) with 1; [reflexivity |].
    apply Z.div_unique with (r := r - 2048); lia.
Qed.

Lemma sign_extend32_byte (b : Z) : 0 <= b <= 255 -> sign_extend32 b 11 = b.
Proof.
  intros Hb. rewrite sign_extend32_bit11 by lia.
  destruct (Z.ltb_spec b 2048); lia.
Qed.

Lemma land_1_bit (b : Z) : Z.land b 1 = 0 \/ Z.land b 1 = 1.
Proof.
  change 1 with (Z.ones 1) at 1 2. rewrite Z.land_ones by lia.
  change (2 ^ 1) with 2. pose proof (Z.mod_pos_bound b 2). lia.
Qed.

(** ** Running the register accessors *)

Section Accessors.

Context {B : Type} `{I2CBus B}.

Lemma hlampctl_read_valid (channel value : Z) (adc : hlampctl B) :
  Spec.valid_channel channel ->
  hlampctl_read channel value adc =
  let r := fst (i2c_smbus_read_byte_data (i2c adc) (Spec.sub_address channel)) in
  Some (if r <? 0 then (- EINVAL, value) else (0, decode channel r),
        after_read adc (Spec.sub_address channel)).
Proof.
  intros [-> | [-> | ->]]; cbn -[Z.ltb decode EINVAL];
    unfold hlampctl_read, bind, smbus_read_byte_data, after_read;
    cbn -[Z.ltb decode EINVAL to_u32 to_s32 sign_extend32];
    destruct (i2c_smbus_read_byte_data (i2c adc) _) as [r b];
    cbn -[Z.ltb decode EINVAL to_u32 to_s32 sign_extend32];
    destruct (r <? 0); reflexivity.
Qed.

Lemma hlampctl_read_invalid (channel value : Z) (adc : hlampctl B) :
  ~ Spec.valid_channel channel ->
  hlampctl_read channel value adc = Some ((- EINVAL, value), adc).
Proof.
  unfold Spec.valid_channel. intros Hc.
  unfold hlampctl_read, bind.
  destruct channel as [| [p | p |] | p]; try reflexivity;
    try (exfalso; apply Hc; auto; fail);
    destruct p; try reflexivity; exfalso; apply Hc; auto.
Qed.

End Accessors.

(** ** Reading and writing registers *)

Section RegisterClaims.

Context {B : Type} `{I2CBus B}.

(** C1: when the bus read at sub-address 2 delivers a raw code [r] with
    [0 <= r <= 4095], [hlampctl_read] on channel 0 succeeds and stores the
    12-bit sign extension of [r]: [r - 4096] for [r >= 2048], [r] itself
    below that. *)
Theorem read_channel0_sign_extend12 (adc : hlampctl B) (value r : Z) :
  fst (i2c_smbus_read_byte_data (i2c adc) 2) = r ->
  0 <= r <= 4095 ->
  hlampctl_read 0 value adc
    = Some ((0, Spec.sign_extend12 r), after_read adc 2)
  /\ (2048 <= r -> Spec.sign_extend12 r = r - 4096)
  /\ (r < 2048 -> Spec.sign_extend12 r = r).
Proof.
  intros Hbus Hr.
  pose proof (sign_extend12_cases r Hr) as Hspec.
  split.
  - rewrite hlampctl_read_valid by (left; reflexivity).
    cbn [Spec.sub_address]. rewrite Hbus. cbv zeta.
    destruct (Z.ltb_spec r 0) as [Hneg | _]; [lia |].
    unfold decode. cbn [Z.eqb].
    rewrite to_u32_small by lia.
    rewrite sign_extend32_bit11 by exact Hr.
    rewrite Hspec. reflexivity.
  - rewrite Hspec. destruct (Z.ltb_spec r 2048); split; intros; lia.
Qed.

Lemma hlampctl_read_channel2_run (adc : hlampctl B) (value b : Z) :
  fst (i2c_smbus_read_byte_data (i2c adc) 3) = b ->
  0 <= b <= 255 ->
  hlampctl_read 2 value adc = Some ((0, Z.land b 1), after_read adc 3).
Proof.
  intros Hbus Hb.
  pose proof (land_1_bit b) as Hbit.
  rewrite hlampctl_read_valid by (right; right; reflexivity).
  cbn [Spec.sub_address]. rewrite Hbus. cbv zeta.
  destruct (Z.ltb_spec b 0) as [Hneg | _]; [lia |].
  unfold decode. change (2 =? 2) with true. change (2 =? 0) with false.
  cbv iota. rewrite to_u32_small by lia.
  rewrite to_s32_small by (destruct Hbit as [-> | ->]; lia).
  reflexivity.
Qed.

(** C7: when the bus read at sub-address 3 delivers a byte [b], reading
    channel 2 succeeds with [b & 1], which is 0 or 1 whatever the other
    bits of [b] are. *)
Theorem read_channel2_low_bit (adc : hlampctl B) (value b : Z) :
  fst (i2c_smbus_read_byte_data (i2c adc) 3) = b ->
  0 <= b <= 255 ->
  hlampctl_read 2 value adc = Some ((0, Z.land b 1), after_read adc 3)
  /\ (Z.land b 1 = 0 \/ Z.land b 1 = 1).
Proof.
  intros Hbus Hb. split.
  - apply hlampctl_read_channel2_run; assumption.
  - apply land_1_bit.
Qed.

(** C9: the bus read delivers a negative errno or a single byte, so its
    result [r] is at most 255.  Then reading channel 0 hands back the byte
    itself whenever the transfer worked, and every successful read of
    channel 0 gives a value in 0..255, never a negative one. *)
Theorem read_channel0_is_bus_byte (adc : hlampctl B) (value : Z) :
  fst (i2c_smbus_read_byte_data (i2c adc) 2) <= 255 ->
  (0 <= fst (i2c_smbus_read_byte_data (i2c adc) 2) ->
   hlampctl_read 0 value adc
     = Some ((0, fst (i2c_smbus_read_byte_data (i2c adc) 2)),
             after_read adc 2))
  /\ (forall v adc',
        hlampctl_read 0 value adc = Some ((0, v), adc') ->
        v = fst (i2c_smbus_read_byte_data (i2c adc) 2) /\ 0 <= v <= 255).
Proof.
  intros Hbyte.
  rewrite hlampctl_read_valid by (left; reflexivity).
  cbn [Spec.sub_address]. cbv zeta.
  set (r := fst (i2c_smbus_read_byte_data (i2c adc) 2)) in *.
  destruct (Z.ltb_spec r 0) as [Hneg | Hpos].
  - split; [lia |]. intros v adc' Heq. discriminate Heq.
  - assert (Hdec : decode 0 r = r).
    { unfold decode. cbn [Z.eqb]. rewrite to_u32_small by lia.
      apply sign_extend32_byte. lia. }
    rewrite Hdec. split; [reflexivity |].
    intros v adc' Heq. injection Heq as Hv _. lia.
Qed.

(** C8: [hlampctl_read] always returns, with 0 or [-EINVAL].  It fails
    exactly when the channel is not 0, 1 or 2 or the bus read is negative,
    and then [*value] holds what it held before the call; only a return of
    0 stores a new value. *)
Theorem read_failure_leaves_value (adc : hlampctl B) (channel value : Z) :
  exists code v adc',
    hlampctl_read channel value adc = Some ((code, v), adc')
    /\ (code = 0 \/ code = - EINVAL)
    /\ (code <> 0 <->
        (~ Spec.valid_channel channel
         \/ fst (i2c_smbus_read_byte_data (i2c adc)
                   (Spec.sub_address channel)) < 0))
    /\ (code <> 0 -> v = value)
    /\ (code = 0 ->
        v = decode channel
              (fst (i2c_smbus_read_byte_data (i2c adc)
                      (Spec.sub_address channel)))).
Proof.
  assert (Hdec : Spec.valid_channel channel \/ ~ Spec.valid_channel channel).
  { unfold Spec.valid_channel. lia. }
  destruct Hdec as [Hv | Hnv].
  - rewrite hlampctl_read_valid by exact Hv. cbv zeta.
    set (r := fst (i2c_smbus_read_byte_data (i2c adc) _)).
    destruct (Z.ltb_spec r 0) as [Hneg | Hpos].
    + exists (- EINVAL), value, (after_read adc (Spec.sub_address channel)).
      unfold EINVAL. repeat split; auto; try lia.
    + exists 0, (decode channel r),
        (after_read adc (Spec.sub_address channel)).
      repeat split; auto; try lia.
      intros [Hc | Hc]; [contradiction | lia].
  - rewrite hlampctl_read_invalid by exact Hnv.
    exists (- EINVAL), value, adc.
    unfold EINVAL. repeat split; auto; try lia.
Qed.

(** C10: a read of a channel other than 0, 1, 2 and a write of a channel
    other than 2 return [-EINVAL] and leave the client data, and with it
    the bus and the peripheral behind it, exactly as they were: no
    transfer is made, whatever the bus is. *)
Theorem rejected_channel_frame (adc : hlampctl B) (channel value : Z) :
  (~ Spec.valid_channel channel ->
   hlampctl_read channel value adc = Some ((- EINVAL, value), adc))
  /\ (channel <> 2 ->
      hlampctl_write channel value adc = Some (- EINVAL, adc)).
Proof.
  split.
  - apply hlampctl_read_invalid.
  - intros Hc. unfold hlampctl_write.
    destruct (Z.eqb_spec channel 2) as [Heq | _]; [contradiction |].
    reflexivity.
Qed.

(** C2: on channel 2 a write of [v] puts exactly one byte on the bus, at
    sub-address 3: 1 when [v > 0], 0 otherwise.  When the bus then reads
    that byte back from sub-address 3, the read of channel 2 that follows
    yields it: 1 for [v > 0], 0 for [v <= 0]. *)
Theorem write_then_read_channel2 (adc : hlampctl B) (v value : Z) :
  fst (i2c_smbus_read_byte_data
         (snd (i2c_smbus_write_byte_data (i2c adc) 3 (Spec.bool_byte v))) 3)
    = Spec.bool_byte v ->
  hlampctl_write 2 v adc
    = Some (fst (i2c_smbus_write_byte_data (i2c adc) 3 (Spec.bool_byte v)),
            after_write adc 3 (Spec.bool_byte v))
  /\ hlampctl_read 2 value (after_write adc 3 (Spec.bool_byte v))
     = Some ((0, Spec.bool_byte v),
             after_read (after_write adc 3 (Spec.bool_byte v)) 3)
  /\ (_ <- hlampctl_write 2 v ;; hlampctl_read 2 value) adc
     = Some ((0, Spec.bool_byte v),
             after_read (after_write adc 3 (Spec.bool_byte v)) 3)
  /\ (v > 0 -> Spec.bool_byte v = 1)
  /\ (v <= 0 -> Spec.bool_byte v = 0).
Proof.
  intros Hecho.
  assert (Hbyte : (if v >? 0 then 1 else 0) = Spec.bool_byte v).
  { unfold Spec.bool_byte. rewrite Z.gtb_ltb. reflexivity. }
  assert (Hrange : Spec.bool_byte v = 0 \/ Spec.bool_byte v = 1).
  { unfold Spec.bool_byte. destruct (0 <? v); auto. }
  assert (Hw : hlampctl_write 2 v adc
    = Some (fst (i2c_smbus_write_byte_data (i2c adc) 3 (Spec.bool_byte v)),
            after_write adc 3 (Spec.bool_byte v))).
  { unfold hlampctl_write, bind, smbus_write_byte_data, after_write.
    cbn [Z.eqb Pos.eqb]. rewrite Hbyte.
    destruct (i2c_smbus_write_byte_data (i2c adc) 3 (Spec.bool_byte v));
      reflexivity. }
  assert (Hr : hlampctl_read 2 value (after_write adc 3 (Spec.bool_byte v))
     = Some ((0, Spec.bool_byte v),
             after_read (after_write adc 3 (Spec.bool_byte v)) 3)).
  { pose proof (hlampctl_read_channel2_run
                  (after_write adc 3 (Spec.bool_byte v)) value
                  (Spec.bool_byte v)) as Hlow.
    cbn [after_write set_i2c i2c] in Hlow.
    pose proof (Hlow Hecho ltac:(lia)) as Hread.
    cbn [after_write set_i2c i2c].
    rewrite Hread. f_equal. f_equal. f_equal.
    destruct Hrange as [-> | ->]; reflexivity. }
  split; [exact Hw |]. split; [exact Hr |].
  split.
  - unfold bind at 1. rewrite Hw. exact Hr.
  - unfold Spec.bool_byte.
    destruct (Z.ltb_spec 0 v); split; intros; lia.
Qed.

End RegisterClaims.

(** ** The IIO callbacks *)

Section RawClaims.

Context {B : Type} `{I2CBus B}.

(** C3: the SCALE query on channel 0 answers [IIO_VAL_INT_PLUS_NANO] with
    the pair (0, 12890625) and leaves the client data, bus included,
    untouched; 12890625 is 3300000000 / 256 truncated (the division is
    exact).  On channels 1 and 2 it answers [IIO_VAL_INT] with 1. *)
Theorem read_raw_scale (adc : hlampctl B) (chan : iio_chan_spec)
    (val1 val2 : Z) :
  (channel chan = 0 ->
   hlampctl_read_raw chan val1 val2 IIO_CHAN_INFO_SCALE adc
     = Some ((IIO_VAL_INT_PLUS_NANO, 0, 12890625), adc))
  /\ (channel chan = 1 \/ channel chan = 2 ->
      hlampctl_read_raw chan val1 val2 IIO_CHAN_INFO_SCALE adc
        = Some ((IIO_VAL_INT, 1, val2), adc))
  /\ Z.quot 3300000000 256 = 12890625
  /\ 12890625 * 256 = 3300000000.
Proof.
  split; [| split; [| split; reflexivity]].
  - intros Hc. unfold hlampctl_read_raw. rewrite Hc. reflexivity.
  - intros [Hc | Hc]; unfold hlampctl_read_raw; rewrite Hc; reflexivity.
Qed.

(** C6: the SAMPLE_FREQUENCY query answers [IIO_VAL_INT] with 10 for
    every channel descriptor and every state of the client data, and
    changes nothing. *)
Theorem read_raw_samp_freq (adc : hlampctl B) (chan : iio_chan_spec)
    (val1 val2 : Z) :
  hlampctl_read_raw chan val1 val2 IIO_CHAN_INFO_SAMP_FREQ adc
    = Some ((IIO_VAL_INT, 10, val2), adc).
Proof. reflexivity. Qed.

(** C5: [hlampctl_write_raw] returns [-EINVAL] and touches nothing for
    every channel and facet other than RAW on channel 2; that is so for
    RAW on channels 0 and 1 and for SCALE and SAMPLE_FREQUENCY on every
    channel, whatever the value.  RAW on channel 2 is handed to
    [hlampctl_write] on channel 2, run with the lock held. *)
Theorem write_raw_only_channel2_raw (adc : hlampctl B) (chan : iio_chan_spec)
    (val1 val2 mask : Z) :
  (~ (channel chan = 2 /\ mask = IIO_CHAN_INFO_RAW) ->
   hlampctl_write_raw chan val1 val2 mask adc = Some (- EINVAL, adc))
  /\ (channel chan = 2 -> mask = IIO_CHAN_INFO_RAW -> lock adc = false ->
      hlampctl_write_raw chan val1 val2 mask adc
        = match hlampctl_write 2 val1 (set_lock adc true) with
          | Some (err, adc1) =>
              Some (if err <? 0 then - EINVAL else 0, set_lock adc1 false)
          | None => None
          end).
Proof.
  split.
  - intros Hnot. unfold hlampctl_write_raw.
    destruct (Z.eqb_spec mask IIO_CHAN_INFO_RAW) as [Hm | Hm].
    + destruct (Z.eqb_spec (channel chan) 2) as [Hc | Hc].
      * exfalso. apply Hnot. split; assumption.
      * reflexivity.
    + destruct (mask =? IIO_CHAN_INFO_SCALE); [reflexivity |].
      destruct (mask =? IIO_CHAN_INFO_SAMP_FREQ); reflexivity.
  - intros Hc Hm Hl. unfold hlampctl_write_raw. rewrite Hm, Hc.
    cbn [Z.eqb IIO_CHAN_INFO_RAW Pos.eqb].
    unfold hlampctl_write_channel, bind at 1 2. rewrite Hc.
    change (to_u8 2) with 2.
    unfold mutex_lock at 1. rewrite Hl.
    unfold bind at 1.
    destruct (hlampctl_write 2 val1 (set_lock adc true)) as [[err adc1] |];
      [| reflexivity].
    cbn [bind mutex_unlock ret].
    destruct (err <? 0); reflexivity.
Qed.

End RawClaims.

(** ** Attaching *)

Section AttachClaims.

Context {B : Type} `{I2CBus B} {K : Type} `{IIOHost B K}.

Lemma probe_recv_run (client : B) :
  (mutex_init ;; mutex_lock ;; r <- master_recv 1 ;; mutex_unlock ;; ret r)
    (Build_hlampctl client 0 false)
  = Some (fst (i2c_master_recv client 1),
          Build_hlampctl (snd (i2c_master_recv client 1)) 0 false).
Proof.
  unfold bind, mutex_init, mutex_lock, master_recv, mutex_unlock, ret.
  cbn [lock set_lock i2c id set_i2c].
  destruct (i2c_master_recv client 1) as [r b]. reflexivity.
Qed.

(** C4, as the code has it: the probe always returns.  It gives
    [-EOPNOTSUPP] when the adapter lacks the functionality, then [-ENOMEM]
    when the device allocation comes back empty, then [-ENODEV] when the
    one-byte probe read is negative, then the IIO core's own code when the
    registration is refused; in every remaining case it returns 0, having
    registered a device that carries the table of exactly 3 channels. *)
Theorem probe_outcomes (client : B) (k : K) :
  let ok := i2c_check_functionality client I2C_FUNC_I2C in
  let alloc := devm_iio_device_alloc k in
  let recv := i2c_master_recv client 1 in
  let d := probed_dev client (snd recv) in
  let reg := devm_iio_device_register (snd alloc) d in
  (ok = false ->
   hlampctl_probe client k = Some (- EOPNOTSUPP, k, client))
  /\ (ok = true -> fst alloc = false ->
      hlampctl_probe client k = Some (- ENOMEM, snd alloc, client))
  /\ (ok = true -> fst alloc = true -> fst recv < 0 ->
      hlampctl_probe client k = Some (- ENODEV, snd alloc, snd recv))
  /\ (ok = true -> fst alloc = true -> 0 <= fst recv -> fst reg < 0 ->
      hlampctl_probe client k = Some (fst reg, snd reg, snd recv))
  /\ (ok = true -> fst alloc = true -> 0 <= fst recv -> 0 <= fst reg ->
      hlampctl_probe client k
        = Some (0, i2c_set_clientdata (snd reg) d, snd recv))
  /\ num_channels d = 3
  /\ channels d = hlampctl_channels
  /\ List.length (channels d) = 3%nat.
Proof.
  intros ok alloc recv d reg.
  assert (Hrun : forall k1, ok = true -> devm_iio_device_alloc k = (true, k1) ->
    hlampctl_probe client k =
      if fst recv <? 0 then Some (- ENODEV, k1, snd recv)
      else let (err, k2) := devm_iio_device_register k1 d in
           if err <? 0 then Some (err, k2, snd recv)
           else Some (0, i2c_set_clientdata k2 d, snd recv)).
  { intros k1 Hok Hal. unfold hlampctl_probe.
    fold ok. rewrite Hok, Hal. cbn [negb].
    rewrite probe_recv_run. cbn [i2c]. reflexivity. }
  repeat split.
  - intros Hok. unfold hlampctl_probe. fold ok. rewrite Hok. reflexivity.
  - intros Hok Hal. unfold hlampctl_probe. fold ok. rewrite Hok. cbn [negb].
    fold alloc. destruct alloc as [a k1]. cbn [fst snd] in *. subst a.
    reflexivity.
  - intros Hok Hal Hr. subst alloc.
    destruct (devm_iio_device_alloc k) as [a k1] eqn:Ea.
    cbn [fst snd] in *. subst a. rewrite (Hrun k1 Hok eq_refl).
    destruct (Z.ltb_spec (fst recv) 0); [reflexivity | lia].
  - intros Hok Hal Hr Hreg. subst reg alloc.
    destruct (devm_iio_device_alloc k) as [a k1] eqn:Ea.
    cbn [fst snd] in *. subst a. rewrite (Hrun k1 Hok eq_refl).
    destruct (Z.ltb_spec (fst recv) 0); [lia |].
    destruct (devm_iio_device_register k1 d) as [err k2].
    cbn [fst snd] in *.
    destruct (Z.ltb_spec err 0); [reflexivity | lia].
  - intros Hok Hal Hr Hreg. subst reg alloc.
    destruct (devm_iio_device_alloc k) as [a k1] eqn:Ea.
    cbn [fst snd] in *. subst a. rewrite (Hrun k1 Hok eq_refl).
    destruct (Z.ltb_spec (fst recv) 0); [lia |].
    destruct (devm_iio_device_register k1 d) as [err k2].
    cbn [fst snd] in *.
    destruct (Z.ltb_spec err 0); [lia | reflexivity].
Qed.

End AttachClaims.

(** ** The theorems at work on the scripted peripheral *)

Lemma read_channel0_sign_extend12_witness :
  (fst (i2c_smbus_read_byte_data (i2c (Sim.dev (Sim.idle 5 3000 1))) 2) = 3000
   /\ 0 <= 3000 <= 4095)
  /\ hlampctl_read 0 77 (Sim.dev (Sim.idle 5 3000 1))
     = Some ((0, -1096), after_read (Sim.dev (Sim.idle 5 3000 1)) 2).
Proof.
  split; [split; [reflexivity | lia] |].
  apply (read_channel0_sign_extend12 (Sim.dev (Sim.idle 5 3000 1)) 77 3000);
    [reflexivity | lia].
Defined.

Lemma read_channel2_low_bit_witness :
  (fst (i2c_smbus_read_byte_data (i2c (Sim.dev (Sim.idle 5 0 171))) 3) = 171
   /\ 0 <= 171 <= 255)
  /\ hlampctl_read 2 77 (Sim.dev (Sim.idle 5 0 171))
     = Some ((0, 1), after_read (Sim.dev (Sim.idle 5 0 171)) 3).
Proof.
  split; [split; [reflexivity | lia] |].
  apply (read_channel2_low_bit (Sim.dev (Sim.idle 5 0 171)) 77 171);
    [reflexivity | lia].
Defined.

Lemma read_channel0_is_bus_byte_witness :
  fst (i2c_smbus_read_byte_data (i2c (Sim.dev (Sim.idle 5 200 1))) 2) <= 255
  /\ hlampctl_read 0 77 (Sim.dev (Sim.idle 5 200 1))
     = Some ((0, 200), after_read (Sim.dev (Sim.idle 5 200 1)) 2).
Proof.
  assert (Hbyte :
    fst (i2c_smbus_read_byte_data (i2c (Sim.dev (Sim.idle 5 200 1))) 2) <= 255)
    by (vm_compute; discriminate).
  split; [exact Hbyte |].
  destruct (read_channel0_is_bus_byte (Sim.dev (Sim.idle 5 200 1)) 77 Hbyte)
    as [Hrun _].
  apply Hrun. vm_compute. discriminate.
Defined.

Lemma rejected_channel_frame_witness :
  (~ Spec.valid_channel 7 /\ 7 <> 2)
  /\ hlampctl_read 7 77 (Sim.dev (Sim.idle 5 200 1))
     = Some ((- EINVAL, 77), Sim.dev (Sim.idle 5 200 1))
  /\ hlampctl_write 7 1 (Sim.dev (Sim.idle 5 200 1))
     = Some (- EINVAL, Sim.dev (Sim.idle 5 200 1))
  /\ Sim.log (i2c (Sim.dev (Sim.idle 5 200 1))) = [].
Proof.
  assert (Hbad : ~ Spec.valid_channel 7)
    by (unfold Spec.valid_channel; lia).
  assert (Hne : 7 <> 2) by lia.
  split; [split; assumption |].
  destruct (rejected_channel_frame (Sim.dev (Sim.idle 5 200 1)) 7 77)
    as [Hread _].
  destruct (rejected_channel_frame (Sim.dev (Sim.idle 5 200 1)) 7 1)
    as [_ Hwrite].
  split; [exact (Hread Hbad) |]. split; [exact (Hwrite Hne) | reflexivity].
Defined.

Lemma write_then_read_channel2_witness :
  fst (i2c_smbus_read_byte_data
         (snd (i2c_smbus_write_byte_data
                 (i2c (Sim.dev (Sim.idle 5 0 0))) 3 (Spec.bool_byte 7))) 3)
    = Spec.bool_byte 7
  /\ (_ <- hlampctl_write 2 7 ;; hlampctl_read 2 77) (Sim.dev (Sim.idle 5 0 0))
     = Some ((0, 1),
             after_read (after_write (Sim.dev (Sim.idle 5 0 0)) 3 1) 3)
  /\ Sim.log (i2c (after_read (after_write (Sim.dev (Sim.idle 5 0 0)) 3 1) 3))
     = [Sim.Wr 3 1; Sim.Rd 3].
Proof.
  split; [reflexivity |].
  split; [| reflexivity].
  apply (write_then_read_channel2 (Sim.dev (Sim.idle 5 0 0)) 7 77).
  reflexivity.
Defined.

Lemma read_raw_scale_witness :
  (channel (HLAMPCTL_ADCCHAN 0) = 0 /\ channel (HLAMPCTL_ENABLECHAN 2) = 2)
  /\ hlampctl_read_raw (HLAMPCTL_ADCCHAN 0) 5 6 IIO_CHAN_INFO_SCALE
       (Sim.dev (Sim.idle 5 200 1))
     = Some ((IIO_VAL_INT_PLUS_NANO, 0, 12890625), Sim.dev (Sim.idle 5 200 1))
  /\ hlampctl_read_raw (HLAMPCTL_ENABLECHAN 2) 5 6 IIO_CHAN_INFO_SCALE
       (Sim.dev (Sim.idle 5 200 1))
     = Some ((IIO_VAL_INT, 1, 6), Sim.dev (Sim.idle 5 200 1)).
Proof.
  split; [split; reflexivity |].
  destruct (read_raw_scale (Sim.dev (Sim.idle 5 200 1))
              (HLAMPCTL_ADCCHAN 0) 5 6) as [Hadc _].
  destruct (read_raw_scale (Sim.dev (Sim.idle 5 200 1))
              (HLAMPCTL_ENABLECHAN 2) 5 6) as [_ [Hen _]].
  split; [exact (Hadc eq_refl) | exact (Hen (or_intror eq_refl))].
Defined.

Lemma write_raw_only_channel2_raw_witness :
  (~ (channel (HLAMPCTL_TEMPCHAN 1) = 2
      /\ IIO_CHAN_INFO_RAW = IIO_CHAN_INFO_RAW)
   /\ channel (HLAMPCTL_ENABLECHAN 2) = 2
   /\ lock (Sim.dev (Sim.idle 5 200 0)) = false)
  /\ hlampctl_write_raw (HLAMPCTL_TEMPCHAN 1) 1 0 IIO_CHAN_INFO_RAW
       (Sim.dev (Sim.idle 5 200 0))
     = Some (- EINVAL, Sim.dev (Sim.idle 5 200 0))
  /\ hlampctl_write_raw (HLAMPCTL_ENABLECHAN 2) 9 0 IIO_CHAN_INFO_RAW
       (Sim.dev (Sim.idle 5 200 0))
     = Some (0, after_write (Sim.dev (Sim.idle 5 200 0)) 3 1).
Proof.
  assert (Hnot : ~ (channel (HLAMPCTL_TEMPCHAN 1) = 2
                    /\ IIO_CHAN_INFO_RAW = IIO_CHAN_INFO_RAW))
    by (intros [Hc _]; discriminate Hc).
  split; [split; [exact Hnot | split; reflexivity] |].
  destruct (write_raw_only_channel2_raw (Sim.dev (Sim.idle 5 200 0))
              (HLAMPCTL_TEMPCHAN 1) 1 0 IIO_CHAN_INFO_RAW) as [Hrej _].
  destruct (write_raw_only_channel2_raw (Sim.dev (Sim.idle 5 200 0))
              (HLAMPCTL_ENABLECHAN 2) 9 0 IIO_CHAN_INFO_RAW) as [_ Hacc].
  split; [exact (Hrej Hnot) | exact (Hacc eq_refl eq_refl eq_refl)].
Defined.

(** C4 as the specification words it fails where the IIO core refuses the
    registration: the functionality is there, the probe read returns 1, and
    the probe still returns -12. *)
Lemma attach_as_specified_counterexample :
  ~ attach_as_specified (Sim.idle 0 0 0) (Sim.Build_host true (-12) [] None).
Proof.
  intros (_ & _ & Hok).
  destruct (Hok eq_refl ltac:(vm_compute; discriminate))
    as (k1 & d & client' & Hrun & _).
  vm_compute in Hrun. discriminate Hrun.
Qed.

Lemma probe_outcomes_witness :
  (i2c_check_functionality (Sim.idle 0 0 0) I2C_FUNC_I2C = true
   /\ fst (devm_iio_device_alloc Sim.fresh_host) = true
   /\ 0 <= fst (i2c_master_recv (Sim.idle 0 0 0) 1)
   /\ 0 <= fst (devm_iio_device_register
                  (snd (devm_iio_device_alloc Sim.fresh_host))
                  (probed_dev (Sim.idle 0 0 0)
                     (snd (i2c_master_recv (Sim.idle 0 0 0) 1)))))
  /\ hlampctl_probe (Sim.idle 0 0 0) Sim.fresh_host
     = Some (0,
             Sim.Build_host true 0
               [probed_dev (Sim.idle 0 0 0)
                  (Sim.put (Sim.idle 0 0 0) (Sim.Recv 1))]
               (Some (probed_dev (Sim.idle 0 0 0)
                        (Sim.put (Sim.idle 0 0 0) (Sim.Recv 1)))),
             Sim.put (Sim.idle 0 0 0) (Sim.Recv 1)).
Proof.
  assert (Hrecv : 0 <= fst (i2c_master_recv (Sim.idle 0 0 0) 1))
    by (vm_compute; discriminate).
  assert (Hreg : 0 <= fst (devm_iio_device_register
                  (snd (devm_iio_device_alloc Sim.fresh_host))
                  (probed_dev (Sim.idle 0 0 0)
                     (snd (i2c_master_recv (Sim.idle 0 0 0) 1)))))
    by (vm_compute; discriminate).
  split; [repeat split; try assumption |].
  destruct (probe_outcomes (Sim.idle 0 0 0) Sim.fresh_host)
    as (_ & _ & _ & _ & Hgood & _).
  exact (Hgood eq_refl eq_refl Hrecv Hreg).
Defined.

(** * Further properties of the driver *)

(** ** More on [sign_extend32] at bit 11 *)

Lemma sign_extend32_low12 (r : Z) :
  0 <= r ->
  sign_extend32 r 11 = sign_extend32 (r mod 4096) 11.
Proof.
  intros Hr. unfold sign_extend32.
  change (to_u8 (31 - 11)) with 20.
  rewrite !Z.shiftl_mul_pow2 by lia.
  f_equal. f_equal. unfold to_u32.
  change (2 ^ 32) with (4096 * 2 ^ 20).
  rewrite !Z.mul_mod_distr_r by lia.
  rewrite Z.mod_mod by lia. reflexivity.
Qed.

Lemma sign_extend12_low12 (r : Z) :
  Spec.sign_extend12 r = Spec.sign_extend12 (r mod 4096).
Proof.
  unfold Spec.sign_extend12.
  change 4095 with (Z.ones 12).
  rewrite !Z.land_ones by lia.
  change (2 ^ 12) with 4096.
  rewrite Z.mod_mod by lia. reflexivity.
Qed.

Lemma sign_extend32_is_sign_extend12 (r : Z) :
  0 <= r ->
  sign_extend32 r 11 = Spec.sign_extend12 r.
Proof.
  intros Hr.
  pose proof (Z.mod_pos_bound r 4096 ltac:(lia)) as Hm.
  rewrite sign_extend32_low12 by exact Hr.
  rewrite sign_extend12_low12.
  rewrite sign_extend32_bit11 by lia.
  rewrite sign_extend12_cases by lia.
  reflexivity.
Qed.

Lemma sign_extend12_range (r : Z) :
  - 2048 <= Spec.sign_extend12 r <= 2047
  /\ (Spec.sign_extend12 r - r) mod 4096 = 0.
Proof.
  pose proof (Z.mod_pos_bound r 4096 ltac:(lia)) as Hm.
  rewrite sign_extend12_low12.
  rewrite sign_extend12_cases by lia.
  destruct (Z.ltb_spec (r mod 4096) 2048) as [Hlo | Hhi].
  - split; [lia |].
    rewrite Zminus_mod, Z.mod_mod, Z.sub_diag by lia. reflexivity.
  - split; [lia |].
    replace (r mod 4096 - 4096 - r) with (r mod 4096 - r + (-1) * 4096)
      by lia.
    rewrite Z.mod_add by lia.
    rewrite Zminus_mod, Z.mod_mod, Z.sub_diag by lia. reflexivity.
Qed.

(** ** More on the register accessors *)

Section AccessorExtras.

Context {B : Type} `{I2CBus B}.

(** X1: channel 1 is a plain pass-through: a non-negative bus result at
    sub-address 1 comes back unchanged, with no masking and no sign
    extension. *)
Theorem read_channel1_passthrough (adc : hlampctl B) (value r : Z) :
  fst (i2c_smbus_read_byte_data (i2c adc) 1) = r ->
  0 <= r < 2 ^ 31 ->
  hlampctl_read 1 value adc = Some ((0, r), after_read adc 1).
Proof.
  intros Hbus Hr.
  rewrite hlampctl_read_valid by (right; left; reflexivity).
  cbn [Spec.sub_address]. rewrite Hbus. cbv zeta.
  destruct (Z.ltb_spec r 0) as [Hneg | _]; [lia |].
  unfold decode. change (1 =? 2) with false. change (1 =? 0) with false.
  cbv iota. rewrite to_u32_small by lia. rewrite to_s32_small by lia.
  reflexivity.
Qed.

(** X2: channel 0 keeps only the low 12 bits of whatever non-negative
    result the bus gives: the stored value is the 12-bit sign extension of
    the result, lies in -2048..2047 and differs from the result by a
    multiple of 4096. *)
Theorem read_channel0_low12 (adc : hlampctl B) (value r : Z) :
  fst (i2c_smbus_read_byte_data (i2c adc) 2) = r ->
  0 <= r < 2 ^ 31 ->
  hlampctl_read 0 value adc
    = Some ((0, Spec.sign_extend12 r), after_read adc 2)
  /\ - 2048 <= Spec.sign_extend12 r <= 2047
  /\ (Spec.sign_extend12 r - r) mod 4096 = 0.
Proof.
  intros Hbus Hr. split; [| apply sign_extend12_range].
  rewrite hlampctl_read_valid by (left; reflexivity).
  cbn [Spec.sub_address]. rewrite Hbus. cbv zeta.
  destruct (Z.ltb_spec r 0) as [Hneg | _]; [lia |].
  unfold decode. change (0 =? 2) with false. change (0 =? 0) with true.
  cbv iota. rewrite to_u32_small by lia.
  rewrite sign_extend32_is_sign_extend12 by lia. reflexivity.
Qed.

(** X3: on channels 0, 1 and 2 [hlampctl_read] makes exactly one byte
    read, at sub-address 2, 1 and 3 respectively, whether or not the read
    works: a failed transfer is not retried, and the client data afterwards
    is the client data after that single read. *)
Theorem read_single_transfer (adc : hlampctl B) (channel value : Z) :
  Spec.valid_channel channel ->
  exists r,
    hlampctl_read channel value adc
      = Some (r, after_read adc (Spec.sub_address channel))
    /\ (channel = 0 -> Spec.sub_address channel = 2)
    /\ (channel = 1 -> Spec.sub_address channel = 1)
    /\ (channel = 2 -> Spec.sub_address channel = 3).
Proof.
  intros Hv. rewrite hlampctl_read_valid by exact Hv. cbv zeta.
  eexists. split; [reflexivity |].
  repeat split; intros ->; reflexivity.
Qed.

End AccessorExtras.

(** ** The locked wrappers *)

Section WrapperExtras.

Context {B : Type} `{I2CBus B}.

(** [hlampctl_read] and [hlampctl_write] work on the bus alone: the
    identifier and the mutex of the client data pass through as they are. *)
Lemma hlampctl_read_shape (channel value : Z) (b : B) (i : Z) :
  exists code v b',
    (code = 0 \/ (code = - EINVAL /\ v = value))
    /\ forall l, hlampctl_read channel value (Build_hlampctl b i l)
                 = Some ((code, v), Build_hlampctl b' i l).
Proof.
  assert (Hdec : Spec.valid_channel channel \/ ~ Spec.valid_channel channel).
  { unfold Spec.valid_channel. lia. }
  destruct Hdec as [Hv | Hnv].
  - set (r := fst (i2c_smbus_read_byte_data b (Spec.sub_address channel))).
    exists (if r <? 0 then - EINVAL else 0),
           (if r <? 0 then value else decode channel r),
           (snd (i2c_smbus_read_byte_data b (Spec.sub_address channel))).
    split.
    + destruct (r <? 0); auto.
    + intros l. rewrite hlampctl_read_valid by exact Hv.
      cbn [i2c]. fold r. cbv zeta. destruct (r <? 0); reflexivity.
  - exists (- EINVAL), value, b. split; [auto |].
    intros l. apply hlampctl_read_invalid. exact Hnv.
Qed.

Lemma hlampctl_write_shape (channel value : Z) (b : B) (i : Z) :
  exists code b',
    forall l, hlampctl_write channel value (Build_hlampctl b i l)
              = Some (code, Build_hlampctl b' i l).
Proof.
  unfold hlampctl_write, bind, smbus_write_byte_data, ret.
  destruct (channel =? 2).
  - cbn [i2c set_i2c id lock].
    destruct (i2c_smbus_write_byte_data b 3 (if value >? 0 then 1 else 0))
      as [code b'].
    exists code, b'. intros l. reflexivity.
  - exists (- EINVAL), b. intros l. reflexivity.
Qed.



End WrapperExtras.

(** ** More on the IIO callbacks *)

Section CallbackExtras.

Context {B : Type} `{I2CBus B}.

Lemma hlampctl_read_channel_run (adc : hlampctl B) (chan : iio_chan_spec)
    (value : Z) :
  lock adc = false ->
  hlampctl_read_channel chan value adc
  = hlampctl_read (to_u8 (channel chan)) value adc.
Proof.
  destruct adc as [b i l]. cbn [lock]. intros ->.
  destruct (hlampctl_read_shape (to_u8 (channel chan)) value b i)
    as (code & v & b' & _ & Hrun).
  unfold hlampctl_read_channel, bind, mutex_lock, mutex_unlock, set_lock.
  cbv zeta. cbn [lock i2c id].
  rewrite (Hrun true), (Hrun false). reflexivity.
Qed.

Lemma hlampctl_write_channel_run (adc : hlampctl B) (chan : iio_chan_spec)
    (value : Z) :
  lock adc = false ->
  hlampctl_write_channel chan value adc
  = hlampctl_write (to_u8 (channel chan)) value adc.
Proof.
  destruct adc as [b i l]. cbn [lock]. intros ->.
  destruct (hlampctl_write_shape (to_u8 (channel chan)) value b i)
    as (code & b' & Hrun).
  unfold hlampctl_write_channel, bind, mutex_lock, mutex_unlock, set_lock.
  cbv zeta. cbn [lock i2c id].
  rewrite (Hrun true), (Hrun false). reflexivity.
Qed.

Lemma hlampctl_read_raw_RAW (adc : hlampctl B) (chan : iio_chan_spec)
    (val1 val2 : Z) :
  lock adc = false ->
  hlampctl_read_raw chan val1 val2 IIO_CHAN_INFO_RAW adc
  = match hlampctl_read (to_u8 (channel chan)) val1 adc with
    | Some ((err, v), adc') =>
        Some ((if err <? 0 then - EINVAL else IIO_VAL_INT, v, val2), adc')
    | None => None
    end.
Proof.
  intros Hl. unfold hlampctl_read_raw.
  change (IIO_CHAN_INFO_RAW =? IIO_CHAN_INFO_RAW) with true. cbv iota.
  unfold bind at 1. rewrite hlampctl_read_channel_run by exact Hl.
  destruct (hlampctl_read (to_u8 (channel chan)) val1 adc)
    as [[[err v] adc'] |]; [| reflexivity].
  destruct (err <? 0); reflexivity.
Qed.

(** X6: the RAW query.  The channel number is cut down to a [u8] first.
    With the mutex free: on channel 0, 1 or 2 a non-negative bus result
    gives [IIO_VAL_INT] with the decoded value in [*val1]; a negative one
    gives [-EINVAL] with [*val1] as it was; any other channel gives
    [-EINVAL] with no transfer at all.  [*val2] is never written. *)
Theorem read_raw_raw_facet (adc : hlampctl B) (chan : iio_chan_spec)
    (val1 val2 : Z) :
  lock adc = false ->
  let c := to_u8 (channel chan) in
  let r := fst (i2c_smbus_read_byte_data (i2c adc) (Spec.sub_address c)) in
  (Spec.valid_channel c -> 0 <= r ->
   hlampctl_read_raw chan val1 val2 IIO_CHAN_INFO_RAW adc
   = Some ((IIO_VAL_INT, decode c r, val2),
           after_read adc (Spec.sub_address c)))
  /\ (Spec.valid_channel c -> r < 0 ->
      hlampctl_read_raw chan val1 val2 IIO_CHAN_INFO_RAW adc
      = Some ((- EINVAL, val1, val2), after_read adc (Spec.sub_address c)))
  /\ (~ Spec.valid_channel c ->
      hlampctl_read_raw chan val1 val2 IIO_CHAN_INFO_RAW adc
      = Some ((- EINVAL, val1, val2), adc)).
Proof.
  intros Hl c r. rewrite hlampctl_read_raw_RAW by exact Hl. fold c.
  repeat split.
  - intros Hv Hr. rewrite hlampctl_read_valid by exact Hv. cbv zeta. fold r.
    destruct (Z.ltb_spec r 0); [lia | reflexivity].
  - intros Hv Hr. rewrite hlampctl_read_valid by exact Hv. cbv zeta. fold r.
    destruct (Z.ltb_spec r 0); [reflexivity | lia].
  - intros Hnv. rewrite hlampctl_read_invalid by exact Hnv. reflexivity.
Qed.

(** X7: what [hlampctl_read_raw] can do, over all channels, facets and
    states.  It fails to return only for RAW with the mutex held.
    Otherwise its code is [-EINVAL], [IIO_VAL_INT] or
    [IIO_VAL_INT_PLUS_NANO]; with [-EINVAL] neither [*val1] nor [*val2] is
    written; [*val2] is written only for SCALE on channel 0; and the mutex
    and the identifier of the client data are as before the call. *)
Theorem read_raw_frame (adc : hlampctl B) (chan : iio_chan_spec)
    (val1 val2 mask : Z) :
  (mask = IIO_CHAN_INFO_RAW /\ lock adc = true
   /\ hlampctl_read_raw chan val1 val2 mask adc = None)
  \/ exists code v1 v2 adc',
       hlampctl_read_raw chan val1 val2 mask adc = Some ((code, v1, v2), adc')
       /\ (code = - EINVAL \/ code = IIO_VAL_INT
           \/ code = IIO_VAL_INT_PLUS_NANO)
       /\ (code = - EINVAL -> v1 = val1 /\ v2 = val2)
       /\ (v2 <> val2 ->
           mask = IIO_CHAN_INFO_SCALE /\ channel chan = 0
           /\ code = IIO_VAL_INT_PLUS_NANO)
       /\ lock adc' = lock adc /\ id adc' = id adc.
Proof.
  destruct (Z.eqb_spec mask IIO_CHAN_INFO_RAW) as [-> | Hm].
  - destruct (lock adc) eqn:Hl.
    + left. repeat split.
      unfold hlampctl_read_raw, hlampctl_read_channel, bind, mutex_lock.
      cbn. rewrite Hl. reflexivity.
    + right. rewrite hlampctl_read_raw_RAW by exact Hl.
      destruct adc as [b i l]. cbn [lock] in Hl. subst l.
      destruct (hlampctl_read_shape (to_u8 (channel chan)) val1 b i)
        as (code & v & b' & Hcode & Hrun).
      rewrite (Hrun false).
      exists (if code <? 0 then - EINVAL else IIO_VAL_INT), v, val2,
        (Build_hlampctl b' i false).
      split; [reflexivity |].
      destruct Hcode as [-> | [-> ->]]; cbn;
        repeat split; auto; try discriminate; try contradiction.
  - right. unfold hlampctl_read_raw.
    destruct (Z.eqb_spec mask IIO_CHAN_INFO_RAW) as [| _]; [contradiction |].
    destruct (Z.eqb_spec mask IIO_CHAN_INFO_SCALE) as [Hs | Hs].
    + destruct (Z.eqb_spec (channel chan) 0) as [Hc | Hc].
      * exists IIO_VAL_INT_PLUS_NANO, 0, (to_s32 (Z.quot 3300000000 256)), adc.
        repeat split; auto; discriminate.
      * exists IIO_VAL_INT, 1, val2, adc.
        repeat split; auto; try discriminate; contradiction.
    + destruct (mask =? IIO_CHAN_INFO_SAMP_FREQ).
      * exists IIO_VAL_INT, 10, val2, adc.
        repeat split; auto; try discriminate; contradiction.
      * exists (- EINVAL), val1, val2, adc.
        repeat split; auto; contradiction.
Qed.

Lemma hlampctl_read_raw_other (adc : hlampctl B) (chan : iio_chan_spec)
    (val1 val2 mask : Z) :
  mask <> IIO_CHAN_INFO_RAW ->
  exists v1 v2,
    hlampctl_read_raw chan val1 val2 mask adc
    = Some ((hlampctl_write_raw_get_fmt chan mask, v1, v2), adc).
Proof.
  intros Hm. unfold hlampctl_read_raw, hlampctl_write_raw_get_fmt.
  destruct (Z.eqb_spec mask IIO_CHAN_INFO_RAW) as [| _]; [contradiction |].
  destruct (mask =? IIO_CHAN_INFO_SCALE).
  - destruct (channel chan =? 0); eexists; eexists; reflexivity.
  - destruct (mask =? IIO_CHAN_INFO_SAMP_FREQ);
      eexists; eexists; reflexivity.
Qed.

Lemma get_fmt_codes (chan : iio_chan_spec) (mask : Z) :
  hlampctl_write_raw_get_fmt chan mask = - EINVAL
  \/ hlampctl_write_raw_get_fmt chan mask = IIO_VAL_INT
  \/ hlampctl_write_raw_get_fmt chan mask = IIO_VAL_INT_PLUS_NANO.
Proof.
  unfold hlampctl_write_raw_get_fmt.
  destruct (mask =? IIO_CHAN_INFO_RAW); auto.
  destruct (mask =? IIO_CHAN_INFO_SCALE).
  - destruct (channel chan =? 0); auto.
  - destruct (mask =? IIO_CHAN_INFO_SAMP_FREQ); auto.
Qed.

(** X8: [hlampctl_write_raw_get_fmt] tells the truth about
    [hlampctl_read_raw].  For every facet other than RAW the query returns
    at once, mutex held or not, with exactly the code the format function
    gives and the client data untouched; and for every facet, a query that
    returns a non-negative code returns the format declared for it. *)
Theorem read_raw_matches_get_fmt (adc : hlampctl B) (chan : iio_chan_spec)
    (val1 val2 mask : Z) :
  (mask <> IIO_CHAN_INFO_RAW ->
   exists v1 v2,
     hlampctl_read_raw chan val1 val2 mask adc
     = Some ((hlampctl_write_raw_get_fmt chan mask, v1, v2), adc))
  /\ (forall code v1 v2 adc',
        hlampctl_read_raw chan val1 val2 mask adc
        = Some ((code, v1, v2), adc') ->
        0 <= code ->
        code = hlampctl_write_raw_get_fmt chan mask).
Proof.
  split; [apply hlampctl_read_raw_other |].
  intros code v1 v2 adc' Hrun Hcode.
  destruct (Z.eqb_spec mask IIO_CHAN_INFO_RAW) as [-> | Hm].
  - change (hlampctl_write_raw_get_fmt chan IIO_CHAN_INFO_RAW)
      with IIO_VAL_INT.
    destruct (lock adc) eqn:Hl.
    + unfold hlampctl_read_raw, hlampctl_read_channel, bind, mutex_lock
        in Hrun.
      cbn in Hrun. rewrite Hl in Hrun. discriminate Hrun.
    + rewrite hlampctl_read_raw_RAW in Hrun by exact Hl.
      destruct (hlampctl_read (to_u8 (channel chan)) val1 adc)
        as [[[err v] adc1] |]; [| discriminate Hrun].
      destruct (err <? 0); injection Hrun as Hc _ _ _.
      * subst code. unfold EINVAL in Hcode. lia.
      * symmetry. exact Hc.
  - destruct (hlampctl_read_raw_other adc chan val1 val2 mask Hm)
      as (w1 & w2 & Hrun').
    rewrite Hrun' in Hrun. injection Hrun as Hc _ _ _. symmetry. exact Hc.
Qed.

Lemma bool_byte_gtb (v : Z) : (if v >? 0 then 1 else 0) = Spec.bool_byte v.
Proof. unfold Spec.bool_byte. rewrite Z.gtb_ltb. reflexivity. Qed.

Lemma hlampctl_write_enable (adc : hlampctl B) (v : Z) :
  hlampctl_write 2 v adc
  = Some (fst (i2c_smbus_write_byte_data (i2c adc) 3 (Spec.bool_byte v)),
          after_write adc 3 (Spec.bool_byte v)).
Proof.
  unfold hlampctl_write, bind, smbus_write_byte_data, after_write.
  change (2 =? 2) with true. cbv iota. rewrite bool_byte_gtb.
  destruct (i2c_smbus_write_byte_data (i2c adc) 3 (Spec.bool_byte v));
    reflexivity.
Qed.

Lemma hlampctl_write_raw_enable (adc : hlampctl B) (chan : iio_chan_spec)
    (val1 val2 : Z) :
  lock adc = false ->
  channel chan = 2 ->
  hlampctl_write_raw chan val1 val2 IIO_CHAN_INFO_RAW adc
  = Some (if fst (i2c_smbus_write_byte_data (i2c adc) 3
                    (Spec.bool_byte val1)) <? 0
          then - EINVAL else 0,
          after_write adc 3 (Spec.bool_byte val1)).
Proof.
  intros Hl Hc. unfold hlampctl_write_raw.
  change (IIO_CHAN_INFO_RAW =? IIO_CHAN_INFO_RAW) with true. cbv iota.
  rewrite Hc. change (2 =? 2) with true. cbv iota.
  unfold bind at 1. rewrite hlampctl_write_channel_run by exact Hl.
  rewrite Hc. change (to_u8 2) with 2. rewrite hlampctl_write_enable.
  destruct (fst _ <? 0); reflexivity.
Qed.

Lemma hlampctl_write_raw_reject (adc : hlampctl B) (chan : iio_chan_spec)
    (val1 val2 mask : Z) :
  ~ (channel chan = 2 /\ mask = IIO_CHAN_INFO_RAW) ->
  hlampctl_write_raw chan val1 val2 mask adc = Some (- EINVAL, adc).
Proof.
  intros Hnot. unfold hlampctl_write_raw.
  destruct (Z.eqb_spec mask IIO_CHAN_INFO_RAW) as [Hm | Hm].
  - destruct (Z.eqb_spec (channel chan) 2) as [Hc | Hc].
    + exfalso. apply Hnot. split; assumption.
    + reflexivity.
  - destruct (mask =? IIO_CHAN_INFO_SCALE); [reflexivity |].
    destruct (mask =? IIO_CHAN_INFO_SAMP_FREQ); reflexivity.
Qed.

(** X9: with the mutex free [hlampctl_write_raw] always returns, with 0 or
    [-EINVAL], and leaves the mutex free.  It returns 0 exactly when the
    call is RAW on channel 2 and the byte write at sub-address 3 was not
    refused by the bus; a bus error of any kind becomes [-EINVAL]. *)
Theorem write_raw_codes (adc : hlampctl B) (chan : iio_chan_spec)
    (val1 val2 mask : Z) :
  lock adc = false ->
  exists code adc',
    hlampctl_write_raw chan val1 val2 mask adc = Some (code, adc')
    /\ (code = 0 \/ code = - EINVAL)
    /\ (code = 0 <->
        (channel chan = 2 /\ mask = IIO_CHAN_INFO_RAW
         /\ 0 <= fst (i2c_smbus_write_byte_data (i2c adc) 3
                        (Spec.bool_byte val1))))
    /\ lock adc' = false /\ id adc' = id adc.
Proof.
  intros Hl.
  assert (Hdec : (channel chan = 2 /\ mask = IIO_CHAN_INFO_RAW)
                 \/ ~ (channel chan = 2 /\ mask = IIO_CHAN_INFO_RAW)) by lia.
  destruct Hdec as [[Hc Hm] | Hnot].
  - subst mask. rewrite hlampctl_write_raw_enable by assumption.
    set (w := fst (i2c_smbus_write_byte_data (i2c adc) 3
                     (Spec.bool_byte val1))).
    eexists. eexists. split; [reflexivity |].
    unfold after_write, set_i2c. cbn [lock id].
    destruct (Z.ltb_spec w 0) as [Hneg | Hpos]; unfold EINVAL.
    + split; [right; reflexivity |]. split; [| split; [exact Hl | reflexivity]].
      split; [discriminate |]. intros (_ & _ & Hw). lia.
    + split; [left; reflexivity |]. split; [| split; [exact Hl | reflexivity]].
      split; [intros _; repeat split; assumption | reflexivity].
  - rewrite hlampctl_write_raw_reject by exact Hnot.
    exists (- EINVAL), adc. unfold EINVAL.
    repeat split; auto; lia.
Qed.

(** X10: [hlampctl_write_raw] looks at [val1] only to see whether it is
    positive and never looks at [val2]: two calls whose [val1] agree in that
    do the same thing, bus traffic and return code alike. *)
Theorem write_raw_sign_only (adc : hlampctl B) (chan : iio_chan_spec)
    (val1 val2 val1' val2' mask : Z) :
  (val1 > 0 <-> val1' > 0) ->
  hlampctl_write_raw chan val1 val2 mask adc
  = hlampctl_write_raw chan val1' val2' mask adc.
Proof.
  intros Hsign.
  assert (Hbyte : (if val1 >? 0 then 1 else 0)
                  = (if val1' >? 0 then 1 else 0)).
  { destruct (Z.gtb_spec val1 0), (Z.gtb_spec val1' 0); lia. }
  assert (Hwrite : forall c a, hlampctl_write c val1 a
                               = hlampctl_write c val1' a).
  { intros c a. unfold hlampctl_write. rewrite Hbyte. reflexivity. }
  assert (Hchan : forall a, hlampctl_write_channel chan val1 a
                            = hlampctl_write_channel chan val1' a).
  { intros a. unfold hlampctl_write_channel, bind, mutex_lock. cbv zeta.
    destruct (lock a); [reflexivity |]. rewrite Hwrite. reflexivity. }
  unfold hlampctl_write_raw.
  destruct (mask =? IIO_CHAN_INFO_RAW); [| reflexivity].
  destruct (channel chan =? 2); [| reflexivity].
  unfold bind. rewrite Hchan. reflexivity.
Qed.

(** X11: the round trip through the callbacks.  With the mutex free, on a
    channel descriptor numbered 2, an update with value [v] that the bus
    accepts returns 0; when the bus then reads back the byte it was given,
    the RAW query that follows returns [IIO_VAL_INT] with 1 in [*val1] for
    [v > 0] and 0 for [v <= 0], and the two calls together make one write
    and one read at sub-address 3. *)
Theorem write_raw_then_read_raw (adc : hlampctl B) (chan : iio_chan_spec)
    (v w2 val1 val2 : Z) :
  lock adc = false ->
  channel chan = 2 ->
  0 <= fst (i2c_smbus_write_byte_data (i2c adc) 3 (Spec.bool_byte v)) ->
  fst (i2c_smbus_read_byte_data
         (snd (i2c_smbus_write_byte_data (i2c adc) 3 (Spec.bool_byte v))) 3)
    = Spec.bool_byte v ->
  hlampctl_write_raw chan v w2 IIO_CHAN_INFO_RAW adc
    = Some (0, after_write adc 3 (Spec.bool_byte v))
  /\ hlampctl_read_raw chan val1 val2 IIO_CHAN_INFO_RAW
       (after_write adc 3 (Spec.bool_byte v))
     = Some ((IIO_VAL_INT, Spec.bool_byte v, val2),
             after_read (after_write adc 3 (Spec.bool_byte v)) 3)
  /\ (v > 0 -> Spec.bool_byte v = 1)
  /\ (v <= 0 -> Spec.bool_byte v = 0).
Proof.
  intros Hl Hc Hw Hecho.
  assert (Hrange : Spec.bool_byte v = 0 \/ Spec.bool_byte v = 1).
  { unfold Spec.bool_byte. destruct (0 <? v); auto. }
  split; [| split].
  - rewrite hlampctl_write_raw_enable by assumption.
    destruct (Z.ltb_spec
                (fst (i2c_smbus_write_byte_data (i2c adc) 3
                        (Spec.bool_byte v))) 0); [lia | reflexivity].
  - rewrite hlampctl_read_raw_RAW by exact Hl.
    rewrite Hc. change (to_u8 2) with 2.
    rewrite (hlampctl_read_channel2_run _ val1 (Spec.bool_byte v))
      by (first [exact Hecho | lia]).
    change (0 <? 0) with false. cbv iota.
    destruct Hrange as [-> | ->]; reflexivity.
  - unfold Spec.bool_byte.
    destruct (Z.ltb_spec 0 v); split; intros; lia.
Qed.

End CallbackExtras.

(** ** The channel table against the callbacks *)

Lemma testbit_below (a m : Z) :
  0 <= a < 2 ^ 13 -> Z.testbit a m = true -> 0 <= m < 13.
Proof.
  intros Ha Hbit.
  destruct (Z.ltb_spec m 0) as [Hneg | Hpos].
  - rewrite Z.testbit_neg_r in Hbit by exact Hneg. discriminate Hbit.
  - split; [exact Hpos |].
    destruct (Z.ltb_spec m 13) as [Hlt | Hge]; [exact Hlt |].
    destruct (Z.eq_dec a 0) as [-> | Hnz].
    + rewrite Z.testbit_0_l in Hbit. discriminate Hbit.
    + rewrite Z.bits_above_log2 in Hbit; [discriminate Hbit | lia |].
      assert (Z.log2 a < 13) by (apply Z.log2_lt_pow2; lia). lia.
Qed.

Lemma advertised_facets (chan : iio_chan_spec) (mask : Z) :
  In chan hlampctl_channels ->
  advertises chan mask = true ->
  (mask = IIO_CHAN_INFO_RAW
   \/ (mask = IIO_CHAN_INFO_SCALE /\ channel chan = 0)
   \/ (mask = IIO_CHAN_INFO_SAMP_FREQ /\ channel chan <> 2))
  /\ Spec.valid_channel (channel chan)
  /\ to_u8 (channel chan) = channel chan.
Proof.
  intros Hin Hadv.
  assert (Hm : 0 <= mask < 13).
  { unfold advertises in Hadv. apply Bool.orb_true_iff in Hadv.
    destruct Hin as [<- | [<- | [<- | []]]];
      destruct Hadv as [Hbit | Hbit];
      apply testbit_below in Hbit; try exact Hbit;
      vm_compute; split; (discriminate || reflexivity). }
  assert (Hcases : mask = 0 \/ mask = 1 \/ mask = 2 \/ mask = 3 \/ mask = 4
                   \/ mask = 5 \/ mask = 6 \/ mask = 7 \/ mask = 8
                   \/ mask = 9 \/ mask = 10 \/ mask = 11 \/ mask = 12) by lia.
  unfold Spec.valid_channel, IIO_CHAN_INFO_RAW, IIO_CHAN_INFO_SCALE,
    IIO_CHAN_INFO_SAMP_FREQ.
  destruct Hin as [<- | [<- | [<- | []]]];
    repeat (destruct Hcases as [-> | Hcases]); try subst mask;
    vm_compute in Hadv; try discriminate Hadv;
    cbn [channel HLAMPCTL_ADCCHAN HLAMPCTL_TEMPCHAN HLAMPCTL_ENABLECHAN];
    (split; [| split; [| reflexivity]]); lia.
Qed.

Section TableExtras.

Context {B : Type} `{I2CBus B}.

(** X12: the channel table promises nothing the callbacks do not keep.
    For a channel of the table and a facet one of its info masks offers,
    the query, made with the mutex free and answered by the bus without
    error, succeeds with the positive format code that
    [hlampctl_write_raw_get_fmt] declares for it. *)
Theorem table_facets_answered (adc : hlampctl B) (chan : iio_chan_spec)
    (val1 val2 mask : Z) :
  In chan hlampctl_channels ->
  advertises chan mask = true ->
  lock adc = false ->
  0 <= fst (i2c_smbus_read_byte_data (i2c adc)
              (Spec.sub_address (channel chan))) ->
  0 < hlampctl_write_raw_get_fmt chan mask
  /\ exists v1 v2 adc',
       hlampctl_read_raw chan val1 val2 mask adc
       = Some ((hlampctl_write_raw_get_fmt chan mask, v1, v2), adc').
Proof.
  intros Hin Hadv Hl Hbus.
  destruct (advertised_facets chan mask Hin Hadv) as (Hmask & Hv & Hu8).
  destruct Hmask as [-> | [[-> Hc] | [-> _]]].
  - split; [reflexivity |].
    rewrite hlampctl_read_raw_RAW by exact Hl.
    rewrite Hu8. rewrite hlampctl_read_valid by exact Hv. cbv zeta.
    destruct (Z.ltb_spec
                (fst (i2c_smbus_read_byte_data (i2c adc)
                        (Spec.sub_address (channel chan)))) 0); [lia |].
    eexists. eexists. eexists. reflexivity.
  - split.
    + unfold hlampctl_write_raw_get_fmt. rewrite Hc. reflexivity.
    + destruct (hlampctl_read_raw_other adc chan val1 val2
                  IIO_CHAN_INFO_SCALE ltac:(discriminate))
        as (v1 & v2 & Hrun).
      exists v1, v2, adc. exact Hrun.
  - split; [reflexivity |].
    destruct (hlampctl_read_raw_other adc chan val1 val2
                IIO_CHAN_INFO_SAMP_FREQ ltac:(discriminate))
      as (v1 & v2 & Hrun).
    exists v1, v2, adc. exact Hrun.
Qed.

(** X13: in the channel table the [output] flag and the write path agree.
    The one channel marked as an output is channel 2, the one channel
    [hlampctl_write_raw] takes a value for; on the two input channels every
    update, whatever the facet and the value, is refused with [-EINVAL]
    and nothing is sent. *)
Theorem table_output_is_writable (adc : hlampctl B) (chan : iio_chan_spec)
    (val1 val2 mask : Z) :
  In chan hlampctl_channels ->
  (output chan = 1 <-> channel chan = 2)
  /\ (output chan <> 1 ->
      hlampctl_write_raw chan val1 val2 mask adc = Some (- EINVAL, adc))
  /\ (output chan = 1 -> lock adc = false ->
      0 <= fst (i2c_smbus_write_byte_data (i2c adc) 3
                  (Spec.bool_byte val1)) ->
      hlampctl_write_raw chan val1 val2 IIO_CHAN_INFO_RAW adc
      = Some (0, after_write adc 3 (Spec.bool_byte val1))).
Proof.
  intros Hin.
  assert (Hflag : output chan = 1 <-> channel chan = 2).
  { destruct Hin as [<- | [<- | [<- | []]]]; cbn; split; intros; lia. }
  split; [exact Hflag |]. split.
  - intros Hout. apply hlampctl_write_raw_reject.
    intros [Hc _]. apply Hout. apply Hflag. exact Hc.
  - intros Hout Hl Hw. rewrite hlampctl_write_raw_enable;
      [| exact Hl | apply Hflag; exact Hout].
    destruct (Z.ltb_spec
                (fst (i2c_smbus_write_byte_data (i2c adc) 3
                        (Spec.bool_byte val1))) 0); [lia | reflexivity].
Qed.

End TableExtras.

(** ** Sequences of calls *)

Section SequenceExtras.

Context {B : Type} `{I2CBus B}.

Lemma serve_step (q : request) (adc : hlampctl B) :
  lock adc = false ->
  exists code adc',
    serve q adc = Some (code, adc')
    /\ lock adc' = false /\ id adc' = id adc /\ callback_code code.
Proof.
  intros Hl. unfold callback_code.
  destruct q as [chan val1 val2 mask | chan val1 val2 mask];
    unfold serve.
  - unfold bind.
    destruct (Z.eqb_spec mask IIO_CHAN_INFO_RAW) as [-> | Hm].
    + rewrite hlampctl_read_raw_RAW by exact Hl.
      destruct adc as [b i l]. cbn [lock] in Hl. subst l.
      destruct (hlampctl_read_shape (to_u8 (channel chan)) val1 b i)
        as (code & v & b' & Hcode & Hrun).
      rewrite (Hrun false). unfold ret. cbn [fst].
      eexists. eexists. split; [reflexivity |].
      cbn [lock id]. split; [reflexivity |]. split; [reflexivity |].
      destruct Hcode as [-> | [-> _]]; cbn; auto.
    + destruct (hlampctl_read_raw_other adc chan val1 val2 mask Hm)
        as (v1 & v2 & Hrun).
      rewrite Hrun. unfold ret. cbn [fst].
      eexists. eexists. split; [reflexivity |].
      split; [exact Hl |]. split; [reflexivity |].
      destruct (get_fmt_codes chan mask) as [-> | [-> | ->]]; auto.
  - assert (Hdec : (channel chan = 2 /\ mask = IIO_CHAN_INFO_RAW)
                   \/ ~ (channel chan = 2 /\ mask = IIO_CHAN_INFO_RAW))
      by lia.
    destruct Hdec as [[Hc ->] | Hnot].
    + rewrite hlampctl_write_raw_enable by assumption.
      eexists. eexists. split; [reflexivity |].
      unfold after_write, set_i2c. cbn [lock id].
      split; [exact Hl |]. split; [reflexivity |].
      destruct (_ <? 0); auto.
    + rewrite hlampctl_write_raw_reject by exact Hnot.
      exists (- EINVAL), adc. auto.
Qed.

(** X14: the driver never leaves its mutex held.  From client data with
    the mutex free, any sequence of queries and updates, on any channel
    descriptors, facets and values and whatever the bus answers, runs to
    the end: each call returns, there is one code per call, each code is
    [-EINVAL], 0, [IIO_VAL_INT] or [IIO_VAL_INT_PLUS_NANO], and the mutex
    is free again at the end. *)
Theorem serve_all_keeps_lock_free (qs : list request) (adc : hlampctl B) :
  lock adc = false ->
  exists codes adc',
    serve_all qs adc = Some (codes, adc')
    /\ List.length codes = List.length qs
    /\ Forall callback_code codes
    /\ lock adc' = false /\ id adc' = id adc.
Proof.
  revert adc. induction qs as [| q qs IH]; intros adc Hl.
  - exists [], adc. cbn. repeat split; auto.
  - destruct (serve_step q adc Hl) as (code & adc1 & Hq & Hl1 & Hid1 & Hc).
    destruct (IH adc1 Hl1) as (codes & adc2 & Hqs & Hlen & Hall & Hl2 & Hid2).
    exists (code :: codes), adc2.
    cbn [serve_all]. unfold bind at 1. rewrite Hq.
    unfold bind at 1. rewrite Hqs. unfold ret.
    split; [reflexivity |].
    split; [cbn [List.length]; rewrite Hlen; reflexivity |].
    split; [constructor; assumption |].
    split; [exact Hl2 | congruence].
Qed.

End SequenceExtras.

(** ** More on attaching *)

Section ProbeExtras.

Context {B : Type} `{I2CBus B} {K : Type} `{IIOHost B K}.



End ProbeExtras.

(** ** The listing attributes *)

Section ShowExtras.

Context {B : Type} `{I2CBus B}.

(** X16: [in_voltage_scale_available] lists the scale that the SCALE query
    reports.  The text is "0." followed by exactly nine digits and a
    newline, 12 characters in all, which is also the count returned; the
    nine digits spell the nano part that [hlampctl_read_raw] stores in
    [*val2] for channel 0, and the integer part it stores in [*val1] is the
    0 before the point. *)
Theorem show_scales_is_read_raw_scale (adc : hlampctl B)
    (chan : iio_chan_spec) (val1 val2 : Z) (buf : string) :
  channel chan = 0 ->
  exists digits nano,
    hlampctl_show_scales buf
      = (12, append "0."%string (append digits Printf.newline))
    /\ String.length digits = 9%nat
    /\ Printf.value digits = Some nano
    /\ hlampctl_read_raw chan val1 val2 IIO_CHAN_INFO_SCALE adc
       = Some ((IIO_VAL_INT_PLUS_NANO, 0, nano), adc).
Proof.
  intros Hc.
  exists (Printf.lu0 9 (Z.quot 3300000000 256)), 12890625.
  split; [reflexivity |]. split; [reflexivity |]. split; [reflexivity |].
  unfold hlampctl_read_raw. rewrite Hc. reflexivity.
Qed.

(** X17: [sampling_frequency_available] lists the rate that the
    SAMPLE_FREQUENCY query reports on every channel: the text is the
    decimal digits of the value stored in [*val1] and a newline, and the
    count returned is its length, 3. *)
Theorem show_samp_freqs_is_read_raw_samp_freq (adc : hlampctl B)
    (chan : iio_chan_spec) (val1 val2 : Z) (buf : string) :
  exists freq,
    hlampctl_read_raw chan val1 val2 IIO_CHAN_INFO_SAMP_FREQ adc
      = Some ((IIO_VAL_INT, freq, val2), adc)
    /\ hlampctl_show_samp_freqs buf
       = (3, append (Printf.lu freq) Printf.newline).
Proof.
  exists 10. split; reflexivity.
Qed.

End ShowExtras.

(** ** The further properties at work on the scripted peripheral *)

Lemma read_channel1_passthrough_witness :
  (fst (i2c_smbus_read_byte_data (i2c (Sim.dev (Sim.idle 37 0 0))) 1) = 37
   /\ 0 <= 37 < 2 ^ 31)
  /\ hlampctl_read 1 77 (Sim.dev (Sim.idle 37 0 0))
     = Some ((0, 37), after_read (Sim.dev (Sim.idle 37 0 0)) 1).
Proof.
  split; [split; [reflexivity | lia] |].
  apply (read_channel1_passthrough (Sim.dev (Sim.idle 37 0 0)) 77 37);
    [reflexivity | lia].
Defined.

Lemma read_channel0_low12_witness :
  (fst (i2c_smbus_read_byte_data (i2c (Sim.dev (Sim.idle 0 7096 0))) 2) = 7096
   /\ 0 <= 7096 < 2 ^ 31)
  /\ hlampctl_read 0 77 (Sim.dev (Sim.idle 0 7096 0))
     = Some ((0, -1096), after_read (Sim.dev (Sim.idle 0 7096 0)) 2).
Proof.
  split; [split; [reflexivity | lia] |].
  apply (read_channel0_low12 (Sim.dev (Sim.idle 0 7096 0)) 77 7096);
    [reflexivity | lia].
Defined.

Lemma read_single_transfer_witness :
  Spec.valid_channel 1
  /\ exists r,
       hlampctl_read 1 77 (Sim.dev (Sim.idle (-6) 0 0))
       = Some (r, after_read (Sim.dev (Sim.idle (-6) 0 0)) 1)
       /\ Sim.log (i2c (after_read (Sim.dev (Sim.idle (-6) 0 0)) 1))
          = [Sim.Rd 1].
Proof.
  assert (Hv : Spec.valid_channel 1) by (right; left; reflexivity).
  split; [exact Hv |].
  destruct (read_single_transfer (Sim.dev (Sim.idle (-6) 0 0)) 1 77 Hv)
    as (r & Hrun & _).
  exists r. split; [exact Hrun | reflexivity].
Defined.



Lemma read_raw_raw_facet_witness :
  (lock (Sim.dev (Sim.idle 5 200 1)) = false
   /\ Spec.valid_channel (to_u8 (channel (HLAMPCTL_TEMPCHAN 1)))
   /\ 0 <= fst (i2c_smbus_read_byte_data (i2c (Sim.dev (Sim.idle 5 200 1)))
                  (Spec.sub_address (to_u8 (channel (HLAMPCTL_TEMPCHAN 1))))))
  /\ hlampctl_read_raw (HLAMPCTL_TEMPCHAN 1) 8 9 IIO_CHAN_INFO_RAW
       (Sim.dev (Sim.idle 5 200 1))
     = Some ((IIO_VAL_INT, 5, 9), after_read (Sim.dev (Sim.idle 5 200 1)) 1).
Proof.
  assert (Hv : Spec.valid_channel (to_u8 (channel (HLAMPCTL_TEMPCHAN 1))))
    by (right; left; reflexivity).
  assert (Hr : 0 <= fst (i2c_smbus_read_byte_data
                           (i2c (Sim.dev (Sim.idle 5 200 1)))
                           (Spec.sub_address
                              (to_u8 (channel (HLAMPCTL_TEMPCHAN 1))))))
    by (vm_compute; discriminate).
  split; [split; [reflexivity | split; assumption] |].
  destruct (read_raw_raw_facet (Sim.dev (Sim.idle 5 200 1))
              (HLAMPCTL_TEMPCHAN 1) 8 9 eq_refl) as [Hgood _].
  exact (Hgood Hv Hr).
Defined.

Lemma write_raw_codes_witness :
  lock (Sim.dev (Sim.idle 5 200 0)) = false
  /\ exists code adc',
       hlampctl_write_raw (HLAMPCTL_ENABLECHAN 2) 4 0 IIO_CHAN_INFO_RAW
         (Sim.dev (Sim.idle 5 200 0)) = Some (code, adc')
       /\ (code = 0 \/ code = - EINVAL)
       /\ (code = 0 <->
           (channel (HLAMPCTL_ENABLECHAN 2) = 2
            /\ IIO_CHAN_INFO_RAW = IIO_CHAN_INFO_RAW
            /\ 0 <= fst (i2c_smbus_write_byte_data
                           (i2c (Sim.dev (Sim.idle 5 200 0))) 3
                           (Spec.bool_byte 4))))
       /\ lock adc' = false /\ id adc' = id (Sim.dev (Sim.idle 5 200 0)).
Proof.
  split; [reflexivity |].
  apply (write_raw_codes (Sim.dev (Sim.idle 5 200 0))
           (HLAMPCTL_ENABLECHAN 2) 4 0 IIO_CHAN_INFO_RAW).
  reflexivity.
Defined.

Lemma write_raw_sign_only_witness :
  (3 > 0 <-> 900 > 0)
  /\ hlampctl_write_raw (HLAMPCTL_ENABLECHAN 2) 3 0 IIO_CHAN_INFO_RAW
       (Sim.dev (Sim.idle 5 200 0))
     = hlampctl_write_raw (HLAMPCTL_ENABLECHAN 2) 900 (-1) IIO_CHAN_INFO_RAW
         (Sim.dev (Sim.idle 5 200 0)).
Proof.
  assert (Hs : 3 > 0 <-> 900 > 0) by lia.
  split; [exact Hs |].
  apply (write_raw_sign_only (Sim.dev (Sim.idle 5 200 0))
           (HLAMPCTL_ENABLECHAN 2) 3 0 900 (-1) IIO_CHAN_INFO_RAW Hs).
Defined.

Lemma write_raw_then_read_raw_witness :
  (lock (Sim.dev (Sim.idle 5 200 0)) = false
   /\ channel (HLAMPCTL_ENABLECHAN 2) = 2
   /\ 0 <= fst (i2c_smbus_write_byte_data
                  (i2c (Sim.dev (Sim.idle 5 200 0))) 3 (Spec.bool_byte 4))
   /\ fst (i2c_smbus_read_byte_data
             (snd (i2c_smbus_write_byte_data
                     (i2c (Sim.dev (Sim.idle 5 200 0))) 3
                     (Spec.bool_byte 4))) 3) = Spec.bool_byte 4)
  /\ hlampctl_write_raw (HLAMPCTL_ENABLECHAN 2) 4 0 IIO_CHAN_INFO_RAW
       (Sim.dev (Sim.idle 5 200 0))
     = Some (0, after_write (Sim.dev (Sim.idle 5 200 0)) 3 1)
  /\ hlampctl_read_raw (HLAMPCTL_ENABLECHAN 2) 8 9 IIO_CHAN_INFO_RAW
       (after_write (Sim.dev (Sim.idle 5 200 0)) 3 1)
     = Some ((IIO_VAL_INT, 1, 9),
             after_read (after_write (Sim.dev (Sim.idle 5 200 0)) 3 1) 3).
Proof.
  assert (Hw : 0 <= fst (i2c_smbus_write_byte_data
                  (i2c (Sim.dev (Sim.idle 5 200 0))) 3 (Spec.bool_byte 4)))
    by (vm_compute; discriminate).
  split; [repeat split; try reflexivity; exact Hw |].
  destruct (write_raw_then_read_raw (Sim.dev (Sim.idle 5 200 0))
              (HLAMPCTL_ENABLECHAN 2) 4 0 8 9 eq_refl eq_refl Hw eq_refl)
    as (Hwr & Hrd & _).
  split; [exact Hwr | exact Hrd].
Defined.

Lemma table_facets_answered_witness :
  (In (HLAMPCTL_ADCCHAN 0) hlampctl_channels
   /\ advertises (HLAMPCTL_ADCCHAN 0) IIO_CHAN_INFO_SCALE = true
   /\ lock (Sim.dev (Sim.idle 5 200 0)) = false
   /\ 0 <= fst (i2c_smbus_read_byte_data (i2c (Sim.dev (Sim.idle 5 200 0)))
                  (Spec.sub_address (channel (HLAMPCTL_ADCCHAN 0)))))
  /\ 0 < hlampctl_write_raw_get_fmt (HLAMPCTL_ADCCHAN 0) IIO_CHAN_INFO_SCALE
  /\ exists v1 v2 adc',
       hlampctl_read_raw (HLAMPCTL_ADCCHAN 0) 8 9 IIO_CHAN_INFO_SCALE
         (Sim.dev (Sim.idle 5 200 0))
       = Some ((hlampctl_write_raw_get_fmt (HLAMPCTL_ADCCHAN 0)
                  IIO_CHAN_INFO_SCALE, v1, v2), adc').
Proof.
  assert (Hin : In (HLAMPCTL_ADCCHAN 0) hlampctl_channels)
    by (left; reflexivity).
  assert (Hbus : 0 <= fst (i2c_smbus_read_byte_data
                  (i2c (Sim.dev (Sim.idle 5 200 0)))
                  (Spec.sub_address (channel (HLAMPCTL_ADCCHAN 0)))))
    by (vm_compute; discriminate).
  split; [repeat split; try reflexivity; assumption |].
  apply (table_facets_answered (Sim.dev (Sim.idle 5 200 0))
           (HLAMPCTL_ADCCHAN 0) 8 9 IIO_CHAN_INFO_SCALE Hin eq_refl eq_refl
           Hbus).
Defined.

Lemma table_output_is_writable_witness :
  (In (HLAMPCTL_ENABLECHAN 2) hlampctl_channels
   /\ output (HLAMPCTL_ENABLECHAN 2) = 1
   /\ lock (Sim.dev (Sim.idle 5 200 0)) = false
   /\ 0 <= fst (i2c_smbus_write_byte_data
                  (i2c (Sim.dev (Sim.idle 5 200 0))) 3 (Spec.bool_byte 4)))
  /\ hlampctl_write_raw (HLAMPCTL_ENABLECHAN 2) 4 0 IIO_CHAN_INFO_RAW
       (Sim.dev (Sim.idle 5 200 0))
     = Some (0, after_write (Sim.dev (Sim.idle 5 200 0)) 3 1).
Proof.
  assert (Hin : In (HLAMPCTL_ENABLECHAN 2) hlampctl_channels)
    by (right; right; left; reflexivity).
  assert (Hw : 0 <= fst (i2c_smbus_write_byte_data
                  (i2c (Sim.dev (Sim.idle 5 200 0))) 3 (Spec.bool_byte 4)))
    by (vm_compute; discriminate).
  split; [repeat split; try reflexivity; assumption |].
  destruct (table_output_is_writable (Sim.dev (Sim.idle 5 200 0))
              (HLAMPCTL_ENABLECHAN 2) 4 0 IIO_CHAN_INFO_RAW Hin)
    as (_ & _ & Hgo).
  exact (Hgo eq_refl eq_refl Hw).
Defined.

Lemma serve_all_keeps_lock_free_witness :
  lock (iio_priv (probed_dev (Sim.idle 5 200 0)
                    (Sim.put (Sim.idle 5 200 0) (Sim.Recv 1)))) = false
  /\ exists codes adc',
       serve_all
         [Update (HLAMPCTL_ENABLECHAN 2) 1 0 IIO_CHAN_INFO_RAW;
          Query (HLAMPCTL_ENABLECHAN 2) 0 0 IIO_CHAN_INFO_RAW;
          Query (HLAMPCTL_ADCCHAN 0) 0 0 IIO_CHAN_INFO_SCALE;
          Update (HLAMPCTL_ADCCHAN 0) 1 0 IIO_CHAN_INFO_RAW]
         (iio_priv (probed_dev (Sim.idle 5 200 0)
                      (Sim.put (Sim.idle 5 200 0) (Sim.Recv 1))))
       = Some (codes, adc')
       /\ List.length codes = 4%nat
       /\ Forall callback_code codes
       /\ lock adc' = false
       /\ id adc' = 0.
Proof.
  split; [reflexivity |].
  apply (serve_all_keeps_lock_free
           [Update (HLAMPCTL_ENABLECHAN 2) 1 0 IIO_CHAN_INFO_RAW;
            Query (HLAMPCTL_ENABLECHAN 2) 0 0 IIO_CHAN_INFO_RAW;
            Query (HLAMPCTL_ADCCHAN 0) 0 0 IIO_CHAN_INFO_SCALE;
            Update (HLAMPCTL_ADCCHAN 0) 1 0 IIO_CHAN_INFO_RAW]
           (iio_priv (probed_dev (Sim.idle 5 200 0)
                        (Sim.put (Sim.idle 5 200 0) (Sim.Recv 1))))).
  reflexivity.
Defined.

Lemma show_scales_is_read_raw_scale_witness :
  channel (HLAMPCTL_ADCCHAN 0) = 0
  /\ exists digits nano,
       hlampctl_show_scales EmptyString
       = (12, append "0."%string (append digits Printf.newline))
       /\ String.length digits = 9%nat
       /\ Printf.value digits = Some nano
       /\ hlampctl_read_raw (HLAMPCTL_ADCCHAN 0) 8 9 IIO_CHAN_INFO_SCALE
            (Sim.dev (Sim.idle 5 200 0))
          = Some ((IIO_VAL_INT_PLUS_NANO, 0, nano),
                  Sim.dev (Sim.idle 5 200 0)).
Proof.
  split; [reflexivity |].
  apply (show_scales_is_read_raw_scale (Sim.dev (Sim.idle 5 200 0))
           (HLAMPCTL_ADCCHAN 0) 8 9 EmptyString).
  reflexivity.
Defined.
